(** * Training-recipe resolution: a shallow embedding of
      [sagemaker/modules/train/sm_recipes/utils.py]

    The module turns a training recipe (an OmegaConf configuration tree), a
    [Compute] description and a few optional arguments into the arguments of
    a model trainer.  The embedding keeps the shape of the Python code:

    - configuration values are an inductive type [value]; mappings are
      association lists in key order;
    - Python's dynamic operations ([x.get(k, d)], [k in x], [x[k]],
      truthiness, [str.startswith], ...) are functions that fail with the
      exception Python raises when the receiver has the wrong type;
    - the pipeline runs in a state-and-exception monad: the state is the
      caller's [Compute] object (it is mutated in place) and the log of the
      effects performed so far; an exception keeps the state reached;
    - the file system, the network, the environment, the image lookup and
      [OmegaConf.resolve] are fields of an environment record [Env].

    Scalars read by the pipeline are taken to be literal: interpolations
    matter only to [OmegaConf.resolve], which is an oracle of [Env]. *)

From Stdlib Require Import String Ascii List Bool ZArith Lia.
Import ListNotations.
Local Open Scope string_scope.

Local Set Warnings "-register-all".

(** ** Strings as Python uses them *)

Module PyStr.

(** [s.startswith(p)] *)
Definition startswith (p s : string) : bool := String.prefix p s.

(** [s.endswith(p)] *)
Definition endswith (p s : string) : bool :=
  let n := String.length s in
  let m := String.length p in
  if Nat.leb m n then String.eqb (String.substring (n - m) m s) p else false.

(** [needle in s] for two strings *)
Fixpoint contains (needle s : string) : bool :=
  if String.prefix needle s then true
  else match s with
       | EmptyString => false
       | String _ t => contains needle t
       end.

Definition lower_ascii (c : ascii) : ascii :=
  let n := nat_of_ascii c in
  if andb (Nat.leb 65 n) (Nat.leb n 90) then ascii_of_nat (n + 32) else c.

(** [s.lower()], on the ASCII letters *)
Fixpoint lower (s : string) : string :=
  match s with
  | EmptyString => EmptyString
  | String c t => String (lower_ascii c) (lower t)
  end.

(** [s.split(sep)] for a one-character separator: never empty. *)
Fixpoint split (sep : ascii) (s : string) : list string :=
  match s with
  | EmptyString => [EmptyString]
  | String c t =>
      if Ascii.eqb c sep then EmptyString :: split sep t
      else match split sep t with
           | h :: r => String c h :: r
           | [] => [String c EmptyString]
           end
  end.

(** Does the character occur in the string? *)
Fixpoint has_char (sep : ascii) (s : string) : bool :=
  match s with
  | EmptyString => false
  | String c t => if Ascii.eqb c sep then true else has_char sep t
  end.

(** [os.path.join(a, b)] on POSIX paths *)
Definition path_join (a b : string) : string :=
  if startswith "/" b then b
  else if orb (String.eqb a "") (endswith "/" a) then a ++ b
  else a ++ "/" ++ b.

(** [os.path.basename(p)]: what follows the last slash *)
Definition basename (p : string) : string :=
  last (split "/"%char p) EmptyString.

End PyStr.

(** ** Configuration values *)

Inductive value : Type :=
| VNone
| VBool (b : bool)
| VInt (z : Z)
| VStr (s : string)
| VList (l : list value)
| VDict (d : list (string * value)).

Definition dict := list (string * value).

(** Exceptions, by their Python class.  [ValueError] is what the
    specification calls a usage error, [RuntimeError] its fatal error.
    [KeyValidationError] is OmegaConf's: a sequence of a configuration
    raises it for a key that is not an integer, and it is a [ValueError]
    by inheritance. *)
Inductive exn : Type :=
| ValueError (msg : string)
| RuntimeError (msg : string)
| IndexError
| KeyError (key : string)
| TypeError
| AttributeError
| KeyValidationError
| External (msg : string).

Inductive result (A : Type) : Type :=
| Ok (a : A)
| Raise (e : exn).
Arguments Ok {A} a.
Arguments Raise {A} e.

Definition is_usage_error {A} (r : result A) : bool :=
  match r with
  | Raise (ValueError _) => true
  | Raise KeyValidationError => true
  | _ => false
  end.

Module Py.

Fixpoint assoc (k : string) (d : dict) : option value :=
  match d with
  | [] => None
  | (k', v) :: t => if String.eqb k k' then Some v else assoc k t
  end.

Definition has_key (k : string) (d : dict) : bool :=
  match assoc k d with Some _ => true | None => false end.

(** [d[k] = v] on a dictionary: replace in place or append. *)
Fixpoint set (k : string) (v : value) (d : dict) : dict :=
  match d with
  | [] => [(k, v)]
  | (k', v') :: t =>
      if String.eqb k k' then (k, v) :: t else (k', v') :: set k v t
  end.

(** [bool(v)] *)
Definition truthy (v : value) : bool :=
  match v with
  | VNone => false
  | VBool b => b
  | VInt z => negb (Z.eqb z 0)
  | VStr s => negb (String.eqb s "")
  | VList l => match l with [] => false | _ => true end
  | VDict d => match d with [] => false | _ => true end
  end.

Definition is_none (v : value) : bool :=
  match v with VNone => true | _ => false end.

(** [x.get(k, default)] on a plain Python value (the registry comes from
    [json.load]): only mappings have it. *)
Definition get (x : value) (k : string) (default : value) : result value :=
  match x with
  | VDict d => Ok (match assoc k d with Some v => v | None => default end)
  | _ => Raise AttributeError
  end.

(** [x.get(k, default)] on a value of a recipe, for a string [k]: the entry
    of a mapping; a sequence of a configuration has [get] too and refuses a
    key that is no index; other values have no [get]. *)
Definition cfg_get (x : value) (k : string) (default : value)
    : result value :=
  match x with
  | VList _ => Raise KeyValidationError
  | _ => get x k default
  end.

Definition value_is_str (s : string) (v : value) : bool :=
  match v with VStr s' => String.eqb s s' | _ => false end.

(** [k in x] for a string [k]: key of a mapping, item of a sequence,
    substring of a string; other values are not containers. *)
Definition contains (k : string) (x : value) : result bool :=
  match x with
  | VDict d => Ok (has_key k d)
  | VList l => Ok (existsb (value_is_str k) l)
  | VStr s => Ok (PyStr.contains k s)
  | _ => Raise TypeError
  end.

(** [x[k]] for a string [k]; a sequence of a configuration refuses a key
    that is no index. *)
Definition getitem (x : value) (k : string) : result value :=
  match x with
  | VDict d => match assoc k d with
               | Some v => Ok v
               | None => Raise (KeyError k)
               end
  | VList _ => Raise KeyValidationError
  | _ => Raise TypeError
  end.

(** [x.lower()] and [x.startswith(p)]: only strings have them. *)
Definition lower (x : value) : result string :=
  match x with
  | VStr s => Ok (PyStr.lower s)
  | _ => Raise AttributeError
  end.

Definition startswith (p : string) (x : value) : result bool :=
  match x with
  | VStr s => Ok (PyStr.startswith p s)
  | _ => Raise AttributeError
  end.

End Py.

(** ** The objects the pipeline builds *)

(** [sagemaker.modules.configs.Compute]: the two fields the pipeline
    reads.  [instance_count] holds whatever Python value was stored in it;
    [VNone] is [None]. *)
Record Compute : Type := mkCompute {
  instance_type : option string;
  instance_count : value
}.

Record SourceCode : Type := mkSourceCode {
  source_dir : option string;
  entry_script : option string;
  requirements : option string
}.

(** [SourceCode()] *)
Definition SourceCode_new : SourceCode := mkSourceCode None None None.

Record SMP : Type := mkSMP { random_seed : string }.

Inductive Distributed : Type :=
| Torchrun (smp : option SMP).

(** What a device builder returns: the dictionary with the keys
    [source_code], [training_image] and [distributed]. *)
Record DeviceArgs : Type := mkDeviceArgs {
  d_source_code : SourceCode;
  d_training_image : string;
  d_distributed : Distributed
}.

(** The dictionary the entry point returns.  [a_compute] is the caller's
    object; the record holds its content when the call returns. *)
Record Args : Type := mkArgs {
  a_source_code : option SourceCode;
  a_training_image : option string;
  a_distributed : option Distributed;
  a_compute : Compute;
  a_hyperparameters : dict
}.

(** [training_recipe]: a name, path or URL, or a loaded configuration. *)
Inductive recipe_ref : Type :=
| RecipeStr (s : string)
| RecipeCfg (cfg : value).

(** ** Effects *)

Inductive event : Type :=
| EvLoadRecipesCfg
| EvCopyRecipe (src : string)
| EvUrlRetrieve (url : string)
| EvClone (repo : value) (dir : string)
| EvLoadYaml (src : string)
| EvWarnNumNodesIgnored (c : Compute)
| EvRegisterResolvers
| EvResolve (key : option string) (root : value)
| EvMkTempDir (prefix : string)
| EvSaveRecipe (cfg : value) (path : string)
| EvCopyRequirements (src dst : string).

(** The world outside the module. *)
Record Env : Type := mkEnv {
  (** [json.load] of the bundled [training_recipes.json] *)
  env_recipes_cfg : result value;
  (** [os.environ.get] *)
  env_getenv : string -> option string;
  (** [os.path.isfile] *)
  env_isfile : string -> bool;
  (** [urlretrieve]: [Some msg] when it raises, [msg] being [str(e)] *)
  env_urlretrieve : string -> option string;
  (** [OmegaConf.load] of the recipe file taken from the given place *)
  env_load_yaml : string -> result value;
  (** [_run_clone_command_silent]: [Some e] when it raises [e] *)
  env_clone : value -> string -> option exn;
  (** [sagemaker.image_uris.retrieve(framework, region, version,
      image_scope="training", **additional_args)] *)
  env_retrieve : value -> string -> value -> dict -> result string;
  (** [OmegaConf.resolve], which works in place: the configuration after
      the call, and whether it ended without an [OmegaConfBaseException] *)
  env_resolve : value -> value * bool;
  (** name of the temporary directory made for a prefix *)
  env_tmpdir : string -> string
}.

Record state : Type := mkState {
  st_compute : Compute;
  st_log : list event
}.

(** State and exceptions: a computation returns the state it reached,
    also when it raises. *)
Definition M (A : Type) : Type := state -> state * result A.

Definition ret {A} (a : A) : M A := fun s => (s, Ok a).
Definition raise {A} (e : exn) : M A := fun s => (s, Raise e).
Definition bind {A B} (m : M A) (f : A -> M B) : M B :=
  fun s => match m s with
           | (s', Ok a) => f a s'
           | (s', Raise e) => (s', Raise e)
           end.
Definition lift {A} (r : result A) : M A := fun s => (s, r).
Definition emit (e : event) : M unit :=
  fun s => (mkState (st_compute s) (st_log s ++ [e]), Ok tt).
Definition get_compute : M Compute := fun s => (s, Ok (st_compute s)).
Definition set_instance_count (v : value) : M unit :=
  fun s => (mkState (mkCompute (instance_type (st_compute s)) v) (st_log s),
            Ok tt).
Definition when (b : bool) (m : M unit) : M unit := if b then m else ret tt.

Definition rbind {A B} (r : result A) (f : A -> result B) : result B :=
  match r with
  | Ok a => f a
  | Raise e => Raise e
  end.

Declare Scope py_scope.
Delimit Scope py_scope with py.
Notation "x <- m ;; k" := (bind m (fun x => k))
  (at level 61, m at next level, right associativity) : py_scope.
Notation "' pat <- m ;; k" :=
  (bind m (fun x => match x with pat => k end))
  (at level 61, pat pattern, m at next level, right associativity) : py_scope.
Notation "m ;; k" := (bind m (fun _ => k))
  (at level 61, right associativity) : py_scope.
Notation "x <~ r ;; k" := (rbind r (fun x => k))
  (at level 61, r at next level, right associativity) : py_scope.

(** ** The module's functions *)

Local Open Scope py_scope.

Definition dq : string := String (ascii_of_nat 34) EmptyString.

(** [SM_RECIPE_YAML] of [sagemaker.modules.constants] *)
Definition SM_RECIPE_YAML : string := "recipe.yaml".

(** [_determine_device_type] *)
Definition _determine_device_type (instance_type : string) : result string :=
  match nth_error (PyStr.split "."%char instance_type) 1 with
  | None => Raise IndexError
  | Some instance_family =>
      if orb (PyStr.startswith "p" instance_family)
             (PyStr.startswith "g" instance_family)
      then Ok "gpu"
      else if PyStr.startswith "trn" instance_family then Ok "trainium"
      else Ok "cpu"
  end.

Definition model_type_to_script : list (string * (string * string)) :=
  [ ("llama", ("llama", "llama_pretrain.py"));
    ("mistral", ("mistral", "mistral_pretrain.py"));
    ("mixtral", ("mixtral", "mixtral_pretrain.py"));
    ("deepseek", ("deepseek", "deepseek_pretrain.py")) ].

(** The [for key in model_type_to_script] loop: the first key the model
    type starts with replaces it. *)
Fixpoint first_family_prefix (keys : list (string * (string * string)))
    (model_type : string) : string :=
  match keys with
  | [] => model_type
  | (key, _) :: rest =>
      if PyStr.startswith key model_type then key
      else first_family_prefix rest model_type
  end.

Fixpoint table_lookup (k : string) (t : list (string * (string * string)))
    : option (string * string) :=
  match t with
  | [] => None
  | (k', v) :: rest => if String.eqb k k' then Some v else table_lookup k rest
  end.

(** [_get_trainining_recipe_gpu_model_name_and_script] *)
Definition _get_trainining_recipe_gpu_model_name_and_script
    (model_type : value) : result (string * string) :=
  match model_type with
  | VStr mt =>
      let mt' := first_family_prefix model_type_to_script mt in
      match table_lookup mt' model_type_to_script with
      | None => Raise (ValueError ("Model type " ++ mt' ++ " not supported"))
      | Some entry => Ok entry
      end
  | _ => Raise AttributeError
  end.

(** Modelled from the spec: [OmegaConf.merge], a function of the OmegaConf
    library that the module calls and does not define.  Section 3 describes
    it: override values take precedence at every matching path, by a deep
    merge and not a replacement at the root.  Two mappings are merged key
    by key (keys of the loaded recipe keep their place, new keys follow);
    in every other case the override replaces the loaded value. *)
Fixpoint merge (a b : value) {struct a} : value :=
  match a, b with
  | VDict da, VDict db =>
      VDict
        (map (fun kv : string * value =>
                let '(k, va) := kv in
                (k, match Py.assoc k db with
                    | Some vb => merge va vb
                    | None => va
                    end)) da
         ++ filter (fun kv => negb (Py.has_key (fst kv) da)) db)
  | _, _ => b
  end.


Definition is_mapping (v : value) : bool :=
  match v with VDict _ => true | _ => false end.

Section WithEnv.

Variable env : Env.

(** [os.environ.get(name, None) or cfg.get(key)] *)
Definition env_or_cfg (name : string) (cfg : value) (key : string)
    : result value :=
  match env_getenv env name with
  | Some s => if Py.truthy (VStr s) then Ok (VStr s) else Py.get cfg key VNone
  | None => Py.get cfg key VNone
  end.

Definition clone (repo : value) (dir : string) : M unit :=
  emit (EvClone repo dir) ;;
  match env_clone env repo dir with
  | Some e => raise e
  | None => ret tt
  end.

(** The image of a builder: a literal of the registry, or a lookup. *)
Definition training_image_of (image_cfg : value) (region_name : string)
    : result string :=
  match image_cfg with
  | VStr s => Ok s
  | _ =>
      framework <~ Py.get image_cfg "framework" VNone ;;
      version <~ Py.get image_cfg "version" VNone ;;
      additional <~ Py.get image_cfg "additional_args" VNone ;;
      match additional with
      | VDict kw => env_retrieve env framework region_name version kw
      | _ => Raise TypeError
      end
  end.

(** [_try_resolve_recipe]: the configuration object as the call leaves
    it, and the value returned ([None] when resolution failed).  With a
    key the recipe is copied into a fresh one-key configuration, so the
    caller's object is untouched. *)
Definition _try_resolve_recipe (recipe : value) (key : option string)
    : M (value * option value) :=
  match key with
  | None =>
      emit (EvResolve None recipe) ;;
      let '(after, ok) := env_resolve env recipe in
      ret (after, if ok then Some after else None)
  | Some k =>
      let wrapped := VDict [(k, recipe)] in
      emit (EvResolve (Some k) wrapped) ;;
      let '(after, ok) := env_resolve env wrapped in
      if ok then
        r <- lift (Py.getitem after k) ;;
        ret (recipe, Some r)
      else ret (recipe, None)
  end.

(** The three attempts both builders make, and the error when all fail:
    [final_recipe = _try_resolve_recipe(recipe)] and the three
    [if final_recipe is None] that follow. *)
Definition resolve_final_recipe (recipe : value) : M value :=
  '(recipe1, final1) <- _try_resolve_recipe recipe None ;;
  '(recipe2, final2) <-
      match final1 with
      | None => _try_resolve_recipe recipe1 (Some "recipes")
      | Some _ => ret (recipe1, final1)
      end ;;
  '(recipe3, final3) <-
      match final2 with
      | None => _try_resolve_recipe recipe2 (Some "training")
      | Some _ => ret (recipe2, final2)
      end ;;
  match final3 with
  | None => raise (RuntimeError "Could not resolve provided recipe.")
  | Some final_recipe => ret final_recipe
  end.

(** [_load_recipes_cfg] *)
Definition _load_recipes_cfg : M value :=
  emit EvLoadRecipesCfg ;;
  lift (env_recipes_cfg env).

(** [_load_base_recipe] *)
Definition _load_base_recipe (training_recipe : string)
    (recipe_overrides : option value) (training_recipes_cfg : option value)
    : M value :=
  let recipe_overrides :=
    match recipe_overrides with
    | None => VDict []
    | Some o => o
    end in
  src <-
    (if PyStr.endswith ".yaml" training_recipe then
       if env_isfile env training_recipe then
         emit (EvCopyRecipe training_recipe) ;;
         ret training_recipe
       else
         emit (EvUrlRetrieve training_recipe) ;;
         match env_urlretrieve env training_recipe with
         | Some msg =>
             raise (ValueError ("Could not fetch the provided recipe "
                                ++ training_recipe ++ ": exception " ++ msg))
         | None => ret training_recipe
         end
     else
       emit (EvMkTempDir "launcher_") ;;
       let recipe_launcher_dir := env_tmpdir env "launcher_" in
       cfg <- match training_recipes_cfg with
              | None => _load_recipes_cfg
              | Some c => ret c
              end ;;
       launcher_repo <-
         lift (env_or_cfg "TRAINING_LAUNCHER_GIT" cfg "launcher_repo") ;;
       clone launcher_repo recipe_launcher_dir ;;
       let recipe :=
         PyStr.path_join
           (PyStr.path_join
              (PyStr.path_join recipe_launcher_dir "recipes_collection")
              "recipes")
           (training_recipe ++ ".yaml") in
       if env_isfile env recipe then
         emit (EvCopyRecipe recipe) ;;
         ret recipe
       else raise (ValueError ("Recipe " ++ training_recipe ++ " not found."))) ;;
  emit (EvLoadYaml src) ;;
  recipe <- lift (env_load_yaml env src) ;;
  ret (merge recipe recipe_overrides).

(** [_configure_gpu_args] *)
Definition _configure_gpu_args (training_recipes_cfg : value)
    (region_name : string) (recipe : value) (recipe_train_dir : string)
    : M DeviceArgs :=
  let source_code := SourceCode_new in
  adapter_repo <-
    lift (env_or_cfg "TRAINING_ADAPTER_GIT" training_recipes_cfg
                     "adapter_repo") ;;
  clone adapter_repo recipe_train_dir ;;
  has_model <- lift (Py.contains "model" recipe) ;;
  if negb has_model then
    raise (ValueError "Supplied recipe does not contain required field model.")
  else
    model <- lift (Py.getitem recipe "model") ;;
    has_model_type <- lift (Py.contains "model_type" model) ;;
    if negb has_model_type then
      raise (ValueError
               "Supplied recipe does not contain required field model_type.")
    else
      model_type <- lift (Py.getitem model "model_type") ;;
      '(model_base_name, script) <-
        lift (_get_trainining_recipe_gpu_model_name_and_script model_type) ;;
      let source_code :=
        mkSourceCode
          (Some (PyStr.path_join (PyStr.path_join recipe_train_dir "examples")
                                 model_base_name))
          (Some script)
          (requirements source_code) in
      gpu_image_cfg <- lift (Py.get training_recipes_cfg "gpu_image" VNone) ;;
      training_image <- lift (training_image_of gpu_image_cfg region_name) ;;
      ret (mkDeviceArgs source_code training_image
                        (Torchrun (Some (mkSMP "123456")))).

(** [_configure_trainium_args] *)
Definition _configure_trainium_args (training_recipes_cfg : value)
    (region_name : string) (recipe_train_dir : string) : M DeviceArgs :=
  let source_code := SourceCode_new in
  neuron_dist_repo <-
    lift (Py.get training_recipes_cfg "neuron_dist_repo" VNone) ;;
  clone neuron_dist_repo recipe_train_dir ;;
  let source_code :=
    mkSourceCode (Some (PyStr.path_join recipe_train_dir "examples"))
                 (Some "training_orchestrator.py")
                 (requirements source_code) in
  neuron_image_cfg <-
    lift (Py.get training_recipes_cfg "neuron_image" VNone) ;;
  training_image <- lift (training_image_of neuron_image_cfg region_name) ;;
  ret (mkDeviceArgs source_code training_image (Torchrun None)).

End WithEnv.

(** [_is_nova_recipe] *)
Definition _is_nova_recipe (recipe : value) : result bool :=
  run_config <~ Py.cfg_get recipe "run" (VDict []) ;;
  model_type_raw <~ Py.cfg_get run_config "model_type" (VStr "") ;;
  model_type <~ Py.lower model_type_raw ;;
  has_nova_model <~
    (if Py.truthy (VStr model_type) then
       if PyStr.contains "amazon.nova" model_type
       then Py.contains "model_name_or_path" run_config
       else Ok false
     else Ok false) ;;
  training_config <~ Py.cfg_get recipe "training_config" (VDict []) ;;
  distillation_data <~ Py.cfg_get training_config "distillation_data" VNone ;;
  let has_distillation := negb (Py.is_none distillation_data) in
  Ok (orb has_nova_model has_distillation).

Section Pipeline.

Variable env : Env.

(** [not role] for an optional string *)
Definition role_missing (role : option string) : bool :=
  match role with
  | None => true
  | Some r => negb (Py.truthy (VStr r))
  end.

(** [recipe.get("run", {}).get("replicas", None)] *)
Definition run_replicas (recipe : value) : result value :=
  run <~ Py.cfg_get recipe "run" (VDict []) ;;
  Py.cfg_get run "replicas" VNone.

(** The first two statements of [_get_args_from_nova_recipe]: the check
    of the instance count and the assignment to [compute.instance_count];
    [compute] is the object of the state. *)
Definition nova_instance_count_block (recipe : value) : M unit :=
  compute <- get_compute ;;
  (if negb (Py.truthy (instance_count compute)) then
     replicas <- lift (run_replicas recipe) ;;
     if negb (Py.truthy replicas) then
       raise (ValueError
         "Must set ``instance_type`` in compute or ``replicas`` in recipe.")
     else ret tt
   else ret tt) ;;
  if Py.truthy (instance_count compute) then
    set_instance_count (instance_count compute)
  else
    replicas <- lift (run_replicas recipe) ;;
    set_instance_count replicas.

Definition role_required : string :=
  "Must provide 'role' parameter when using Nova distillation".

Definition kms_key_required : string :=
  "Nova distillation job recipe requires " ++ dq ++ "kms_key" ++ dq
  ++ " field in " ++ dq ++ "training_config" ++ dq.

(** The hyperparameters of [_get_args_from_nova_recipe], from
    [args.update({"hyperparameters": {}})] to the end of the distillation
    block: no effect but the exceptions. *)
Definition nova_hyperparameters (recipe : value) (role : option string)
    : result dict :=
  let hyperparameters : dict := [] in
  run_config <~ Py.cfg_get recipe "run" (VDict []) ;;
  model_name_or_path <~ Py.cfg_get run_config "model_name_or_path" VNone ;;
  hyperparameters <~
    (if Py.truthy model_name_or_path then
       is_s3 <~ Py.startswith "s3://" model_name_or_path ;;
       if is_s3 then
         Ok (Py.set "base_model_location" model_name_or_path hyperparameters)
       else Ok (Py.set "base_model" model_name_or_path hyperparameters)
     else Ok hyperparameters) ;;
  training_config <~ Py.cfg_get recipe "training_config" (VDict []) ;;
  distillation_data <~ Py.cfg_get training_config "distillation_data" VNone ;;
  if Py.truthy distillation_data then
    let hyperparameters :=
      Py.set "distillation_data" distillation_data hyperparameters in
    match role with
    | Some r =>
        if role_missing role then Raise (ValueError role_required)
        else
          let hyperparameters := Py.set "role_arn" (VStr r) hyperparameters in
          kms_key <~ Py.cfg_get training_config "kms_key" VNone ;;
          if Py.is_none kms_key then Raise (ValueError kms_key_required)
          else Ok (Py.set "kms_key" kms_key hyperparameters)
    | None => Raise (ValueError role_required)
    end
  else Ok hyperparameters.

(** [_get_args_from_nova_recipe] *)
Definition _get_args_from_nova_recipe (recipe : value) (role : option string)
    : M (Args * string) :=
  nova_instance_count_block recipe ;;
  hyperparameters <- lift (nova_hyperparameters recipe role) ;;
  emit EvRegisterResolvers ;;
  final_recipe <- resolve_final_recipe env recipe ;;
  emit (EvMkTempDir "recipe_") ;;
  let recipe_local_dir := env_tmpdir env "recipe_" in
  let final_recipe_path := PyStr.path_join recipe_local_dir SM_RECIPE_YAML in
  emit (EvSaveRecipe final_recipe final_recipe_path) ;;
  compute <- get_compute ;;
  ret (mkArgs None None None compute hyperparameters, recipe_local_dir).

(** [requirements and not os.path.isfile(requirements)] *)
Definition requirements_not_found (requirements : option string) : bool :=
  match requirements with
  | None => false
  | Some r => andb (Py.truthy (VStr r)) (negb (env_isfile env r))
  end.

(** The [# Set instance_count] block of [_get_args_from_recipe]. *)
Definition set_instance_count_block (recipe : value) : M unit :=
  compute <- get_compute ;;
  (if Py.truthy (instance_count compute) then
     trainer <- lift (Py.getitem recipe "trainer") ;;
     has_num_nodes <- lift (Py.contains "num_nodes" trainer) ;;
     when has_num_nodes (emit (EvWarnNumNodesIgnored compute))
   else ret tt) ;;
  if Py.is_none (instance_count compute) then
    trainer <- lift (Py.getitem recipe "trainer") ;;
    has_num_nodes <- lift (Py.contains "num_nodes" trainer) ;;
    if negb has_num_nodes then
      raise (ValueError
        "Must provide Compute with instance_count or set trainer -> num_nodes in recipe.")
    else
      num_nodes <- lift (Py.getitem trainer "num_nodes") ;;
      set_instance_count num_nodes
  else ret tt.

(** The requirements check that follows it. *)
Definition check_requirements (requirements : option string) : M unit :=
  if requirements_not_found requirements then
    raise (ValueError ("Recipe requirements file "
                       ++ match requirements with Some r => r | None => "" end
                       ++ " not found."))
  else ret tt.

(** [_get_args_from_recipe] after the trainer check: instance count,
    requirements, device builder, resolution, final bundle. *)
Definition standard_path (training_recipes_cfg : value) (recipe : value)
    (itype : string) (region_name : string) (requirements : option string)
    : M (Args * string) :=
  set_instance_count_block recipe ;;
  check_requirements requirements ;;
  device_type <- lift (_determine_device_type itype) ;;
  emit (EvMkTempDir "training_") ;;
  let recipe_train_dir := env_tmpdir env "training_" in
  args <-
    (if String.eqb device_type "gpu" then
       _configure_gpu_args env training_recipes_cfg region_name recipe
                           recipe_train_dir
     else if String.eqb device_type "trainium" then
       _configure_trainium_args env training_recipes_cfg region_name
                                recipe_train_dir
     else
       raise (ValueError ("Devices of type " ++ device_type
                          ++ " are not supported with training recipes."))) ;;
  emit EvRegisterResolvers ;;
  final_recipe <- resolve_final_recipe env recipe ;;
  match source_dir (d_source_code args) with
  | None => raise TypeError
  | Some dir =>
      emit (EvSaveRecipe final_recipe (PyStr.path_join dir SM_RECIPE_YAML)) ;;
      source_code <-
        match requirements with
        | Some r =>
            if Py.truthy (VStr r) then
              emit (EvCopyRequirements r dir) ;;
              ret (mkSourceCode (source_dir (d_source_code args))
                                (entry_script (d_source_code args))
                                (Some (PyStr.basename r)))
            else ret (d_source_code args)
        | None => ret (d_source_code args)
        end ;;
      compute <- get_compute ;;
      ret (mkArgs (Some source_code) (Some (d_training_image args))
                  (Some (d_distributed args)) compute
                  [("config-path", VStr "."); ("config-name", VStr SM_RECIPE_YAML)],
           recipe_train_dir)
  end.

(** [if isinstance(training_recipe, str): recipe = _load_base_recipe(...)
    else: recipe = training_recipe]: a loaded configuration is used as it
    is, without the overrides. *)
Definition recipe_of_reference (training_recipe : recipe_ref)
    (recipe_overrides : option value) (training_recipes_cfg : value)
    : M value :=
  match training_recipe with
  | RecipeStr s =>
      _load_base_recipe env s recipe_overrides (Some training_recipes_cfg)
  | RecipeCfg cfg => ret cfg
  end.

(** [_get_args_from_recipe], the entry point *)
Definition _get_args_from_recipe (training_recipe : recipe_ref)
    (region_name : string) (recipe_overrides : option value)
    (requirements : option string) (role : option string)
    : M (Args * string) :=
  compute <- get_compute ;;
  match instance_type compute with
  | None =>
      raise (ValueError
        "Must set `instance_type` in compute when using training recipes.")
  | Some itype =>
      training_recipes_cfg <- _load_recipes_cfg env ;;
      recipe <- recipe_of_reference training_recipe recipe_overrides
                                    training_recipes_cfg ;;
      nova <- lift (_is_nova_recipe recipe) ;;
      if nova then _get_args_from_nova_recipe recipe role
      else
        has_trainer <- lift (Py.contains "trainer" recipe) ;;
        if negb has_trainer then
          raise (ValueError
            "Supplied recipe does not contain required field trainer.")
        else
          standard_path training_recipes_cfg recipe itype region_name
                        requirements
  end.

End Pipeline.

(** ** Running the pipeline *)

(** A world in which every collaborator succeeds: the registry names its
    repositories and images literally, files exist, clones work and every
    configuration resolves to itself. *)
Definition registry_cfg : value :=
  VDict [ ("launcher_repo", VStr "https://example.com/launcher.git");
          ("adapter_repo", VStr "https://example.com/adapter.git");
          ("neuron_dist_repo", VStr "https://example.com/neuron.git");
          ("gpu_image", VStr "gpu-image:latest");
          ("neuron_image", VStr "neuron-image:latest") ].

Definition friendly_env : Env :=
  mkEnv (Ok registry_cfg)
        (fun _ => None)
        (fun _ => true)
        (fun _ => None)
        (fun _ => Ok (VDict []))
        (fun _ _ => None)
        (fun _ _ _ _ => Ok "image")
        (fun cfg => (cfg, true))
        (fun prefix => "/tmp/" ++ prefix).

(** A world in which [OmegaConf.resolve] always fails. *)
Definition unresolvable_env : Env :=
  mkEnv (Ok registry_cfg)
        (fun _ => None)
        (fun _ => true)
        (fun _ => None)
        (fun _ => Ok (VDict []))
        (fun _ _ => None)
        (fun _ _ _ _ => Ok "image")
        (fun cfg => (cfg, false))
        (fun prefix => "/tmp/" ++ prefix).

Definition init (c : Compute) : state := mkState c [].

(** The friendly world with a recipe file of the given content. *)
Definition recipe_file_env (content : value) : Env :=
  mkEnv (Ok registry_cfg)
        (fun _ => None)
        (fun _ => true)
        (fun _ => None)
        (fun _ => Ok content)
        (fun _ _ => None)
        (fun _ _ _ _ => Ok "image")
        (fun cfg => (cfg, true))
        (fun prefix => "/tmp/" ++ prefix).


(** ** The instance-type family *)

(** What precedes the first separator (the whole string without one). *)
Fixpoint upto (sep : ascii) (s : string) : string :=
  match s with
  | EmptyString => EmptyString
  | String c t => if Ascii.eqb c sep then EmptyString else String c (upto sep t)
  end.

(** What follows the first separator, when there is one. *)
Fixpoint after_first (sep : ascii) (s : string) : option string :=
  match s with
  | EmptyString => None
  | String c t => if Ascii.eqb c sep then Some t else after_first sep t
  end.

(** The segment after the first dot of an instance type: [p4d] in
    [ml.p4d.24xlarge]. *)
Definition instance_family (instance_type : string) : option string :=
  option_map (upto "."%char) (after_first "."%char instance_type).

Definition gpu_prefixed (family : string) : bool :=
  orb (PyStr.startswith "p" family) (PyStr.startswith "g" family).

Definition accelerator_prefixed (family : string) : bool :=
  PyStr.startswith "trn" family.

(** ** Vocabulary of the properties *)

(** The state with more events logged. *)
Definition logged (st : state) (l : list event) : state :=
  mkState (st_compute st) (st_log st ++ l).

(** A section of a recipe that is a mapping when it is there: its entries,
    none when the key is absent. *)
Definition section_of (recipe : value) (k : string) : option dict :=
  match recipe with
  | VDict d =>
      match Py.assoc k d with
      | None => Some []
      | Some (VDict x) => Some x
      | Some _ => None
      end
  | _ => None
  end.

(** A field that is a string when it is there: the empty string when the
    key is absent. *)
Definition string_field (d : dict) (k : string) : option string :=
  match Py.assoc k d with
  | None => Some ""
  | Some (VStr s) => Some s
  | Some _ => None
  end.

(** [run.model_type], compared without case, contains the vendor marker and
    [run.model_name_or_path] is present. *)
Definition vendor_marked (run : dict) (model_type : string) : bool :=
  andb (PyStr.contains "amazon.nova" (PyStr.lower model_type))
       (Py.has_key "model_name_or_path" run).

(** [training_config.distillation_data] is present and not null. *)
Definition distillation_given (training_config : dict) : bool :=
  match Py.assoc "distillation_data" training_config with
  | Some v => negb (Py.is_none v)
  | None => false
  end.

(** [training_config.distillation_data] is present and non-empty. *)
Definition distillation_nonempty (training_config : dict) : bool :=
  match Py.assoc "distillation_data" training_config with
  | Some v => Py.truthy v
  | None => false
  end.

(** The classification as the specification words it: alternate exactly
    when the vendor marker is there with a model path, or the distillation
    data is present and non-empty. *)
Definition spec_is_alternate (run training_config : dict) (model_type : string)
    : bool :=
  orb (vendor_marked run model_type) (distillation_nonempty training_config).

(** [run.model_name_or_path] is a string when it is there and truthy. *)
Definition model_path_ok (run : dict) : bool :=
  match Py.assoc "model_name_or_path" run with
  | None => true
  | Some (VStr _) => true
  | Some v => negb (Py.truthy v)
  end.

(** The hyperparameters that [run.model_name_or_path] gives. *)
Definition base_model_entry (run : dict) : dict :=
  match Py.assoc "model_name_or_path" run with
  | Some (VStr s) =>
      if Py.truthy (VStr s) then
        if PyStr.startswith "s3://" s then [("base_model_location", VStr s)]
        else [("base_model", VStr s)]
      else []
  | _ => []
  end.

(** [d.get(k)] *)
Definition field_or_none (d : dict) (k : string) : value :=
  match Py.assoc k d with
  | Some v => v
  | None => VNone
  end.

(** The alternate builder has an instance count to work with. *)
Definition count_available (run : dict) (c : Compute) : Prop :=
  Py.truthy (instance_count c) = true \/
  Py.truthy (field_or_none run "replicas") = true.

(** A computation that leaves the compute object as it found it. *)
Definition keeps_compute {A} (m : M A) : Prop :=
  forall s, st_compute (fst (m s)) = st_compute s.

(** Did the call return? *)
Definition returned {A} (out : state * result A) : bool :=
  match snd out with
  | Ok _ => true
  | Raise _ => false
  end.

(** A world without network: every clone fails; the adapter repository is
    overridden by the environment. *)
Definition offline_env : Env :=
  mkEnv (Ok registry_cfg)
        (fun name => if String.eqb name "TRAINING_ADAPTER_GIT"
                     then Some "https://example.com/fork.git" else None)
        (fun _ => false)
        (fun _ => Some "connection refused")
        (fun _ => Ok (VDict []))
        (fun _ _ => Some (External "clone failed"))
        (fun _ _ _ _ => Ok "image")
        (fun cfg => (cfg, true))
        (fun prefix => "/tmp/" ++ prefix).

(** A registry whose accelerator image has to be looked up. *)
Definition lookup_registry : dict :=
  [ ("neuron_dist_repo", VStr "https://example.com/neuron.git");
    ("neuron_image",
     VDict [("framework", VStr "pytorch"); ("version", VStr "1.13");
            ("additional_args", VDict [("container_version", VStr "v1")])]) ].

(** A value that is no container: null, a boolean, a number or a string. *)
Definition is_scalar (v : value) : bool :=
  match v with
  | VList _ | VDict _ => false
  | _ => true
  end.

(** The model families of [model_type_to_script], in its order. *)
Definition supported_families : list string :=
  map fst model_type_to_script.

(** ** The resolver registry *)

(** The functions [_register_custom_resolvers] registers, and any other
    resolver that is registered already. *)
Inductive resolver : Type :=
| Multiply
| DivideCeil
| DivideFloor
| Add
| Foreign (id : nat).

(** OmegaConf's table of resolvers, by name. *)
Definition resolvers := list (string * resolver).

Fixpoint find_resolver (name : string) (reg : resolvers) : option resolver :=
  match reg with
  | [] => None
  | (n, r) :: t => if String.eqb name n then Some r else find_resolver name t
  end.

(** [OmegaConf.has_resolver(name)] *)
Definition has_resolver (name : string) (reg : resolvers) : bool :=
  match find_resolver name reg with
  | Some _ => true
  | None => false
  end.

Fixpoint put_resolver (name : string) (r : resolver) (reg : resolvers)
    : resolvers :=
  match reg with
  | [] => [(name, r)]
  | (n, r') :: t =>
      if String.eqb name n then (name, r) :: t
      else (n, r') :: put_resolver name r t
  end.

(** [OmegaConf.register_new_resolver(name, resolver, replace=...)]: a name
    that is taken is an error unless [replace] is set. *)
Definition register_new_resolver (name : string) (r : resolver)
    (replace : bool) (reg : resolvers) : result resolvers :=
  if andb (has_resolver name reg) (negb replace) then
    Raise (ValueError ("resolver '" ++ name ++ "' is already registered"))
  else Ok (put_resolver name r reg).

(** [if not OmegaConf.has_resolver(name): OmegaConf.register_new_resolver(...)] *)
Definition register_unless_present (name : string) (r : resolver)
    (replace : bool) (reg : resolvers) : result resolvers :=
  if negb (has_resolver name reg) then register_new_resolver name r replace reg
  else Ok reg.

(** [_register_custom_resolvers], on the table it updates. *)
Definition _register_custom_resolvers (reg : resolvers) : result resolvers :=
  reg <~ register_unless_present "multiply" Multiply true reg ;;
  reg <~ register_unless_present "divide_ceil" DivideCeil true reg ;;
  reg <~ register_unless_present "divide_floor" DivideFloor true reg ;;
  register_unless_present "add" Add false reg.

(** What the module registers under a name. *)
Definition custom_resolver (name : string) : option resolver :=
  if String.eqb name "multiply" then Some Multiply
  else if String.eqb name "divide_ceil" then Some DivideCeil
  else if String.eqb name "divide_floor" then Some DivideFloor
  else if String.eqb name "add" then Some Add
  else None.

(** ** Properties *)

Lemma split_not_nil (sep : ascii) (s : string) : PyStr.split sep s <> [].
Proof.
  destruct s as [|c t]; simpl; [discriminate|].
  destruct (Ascii.eqb c sep); [discriminate|].
  destruct (PyStr.split sep t); discriminate.
Qed.

Lemma split_head (sep : ascii) (s : string) :
  nth_error (PyStr.split sep s) 0 = Some (upto sep s).
Proof.
  induction s as [|c t IH]; simpl; [reflexivity|].
  destruct (Ascii.eqb c sep); [reflexivity|].
  destruct (PyStr.split sep t) as [|h r]; simpl in *.
  - discriminate.
  - now inversion IH.
Qed.

Lemma split_second (sep : ascii) (s : string) :
  nth_error (PyStr.split sep s) 1 = option_map (upto sep) (after_first sep s).
Proof.
  induction s as [|c t IH]; simpl; [reflexivity|].
  destruct (Ascii.eqb c sep).
  - simpl. apply split_head.
  - pose proof (split_not_nil sep t) as Hne.
    destruct (PyStr.split sep t) as [|h r]; [contradiction|].
    exact IH.
Qed.

Lemma after_first_has_char (sep : ascii) (s : string) :
  after_first sep s = None <-> PyStr.has_char sep s = false.
Proof.
  induction s as [|c t IH]; simpl; [tauto|].
  destruct (Ascii.eqb c sep); [split; discriminate | exact IH].
Qed.

Lemma determine_device_type_family (itype family : string) :
  instance_family itype = Some family ->
  _determine_device_type itype =
    Ok (if gpu_prefixed family then "gpu"
        else if accelerator_prefixed family then "trainium" else "cpu").
Proof.
  unfold instance_family, _determine_device_type. intros H.
  rewrite split_second, H. unfold gpu_prefixed, accelerator_prefixed.
  destruct (PyStr.startswith "p" family || PyStr.startswith "g" family);
    [reflexivity|].
  destruct (PyStr.startswith "trn" family); reflexivity.
Qed.

Lemma determine_device_type_no_family (itype : string) :
  instance_family itype = None -> _determine_device_type itype = Raise IndexError.
Proof.
  unfold instance_family, _determine_device_type. intros H.
  now rewrite split_second, H.
Qed.

(** C10. [_determine_device_type] reads the family as the segment after the
    first dot.  On every instance type that contains a dot it returns, and
    what it returns is one of gpu, trainium (the accelerator class) and cpu;
    on an instance type without a dot the indexing [split(".")[1]] is out of
    bounds and the call ends with [IndexError], which is not a usage
    error. *)
Theorem determine_device_type_dotted_total (itype : string) :
  (PyStr.has_char "."%char itype = true ->
     exists family device,
       nth_error (PyStr.split "."%char itype) 1 = Some family /\
       instance_family itype = Some family /\
       _determine_device_type itype = Ok device /\
       In device ["gpu"; "trainium"; "cpu"]) /\
  (PyStr.has_char "."%char itype = false ->
     _determine_device_type itype = Raise IndexError /\
     is_usage_error (_determine_device_type itype) = false).
Proof.
  split; intros Hdot.
  - destruct (instance_family itype) as [family|] eqn:Hfam.
    + exists family.
      exists (if gpu_prefixed family then "gpu"
              else if accelerator_prefixed family then "trainium" else "cpu").
      repeat split.
      * rewrite split_second. exact Hfam.
      * now apply determine_device_type_family.
      * destruct (gpu_prefixed family); [simpl; tauto|].
        destruct (accelerator_prefixed family); simpl; tauto.
    + unfold instance_family in Hfam.
      destruct (after_first "."%char itype) eqn:Ha; [discriminate|].
      apply after_first_has_char in Ha. congruence.
  - assert (Hfam : instance_family itype = None).
    { unfold instance_family.
      apply after_first_has_char in Hdot. now rewrite Hdot. }
    rewrite (determine_device_type_no_family _ Hfam). split; reflexivity.
Qed.

(** The theorem at [ml.p4d.24xlarge] (a dot: gpu) and at [local] (no dot). *)
Lemma determine_device_type_dotted_total_witness :
  (exists family device,
     nth_error (PyStr.split "."%char "ml.p4d.24xlarge") 1 = Some family /\
     instance_family "ml.p4d.24xlarge" = Some family /\
     _determine_device_type "ml.p4d.24xlarge" = Ok device /\
     In device ["gpu"; "trainium"; "cpu"]) /\
  (_determine_device_type "local" = Raise IndexError /\
   is_usage_error (_determine_device_type "local") = false).
Proof.
  split.
  - apply (proj1 (determine_device_type_dotted_total "ml.p4d.24xlarge")).
    reflexivity.
  - apply (proj2 (determine_device_type_dotted_total "local")).
    reflexivity.
Defined.

(** ** Running monadic code *)

Lemma bind_ok {A B} (m : M A) (f : A -> M B) (s s' : state) (a : A) :
  m s = (s', Ok a) -> bind m f s = f a s'.
Proof. intros H. unfold bind. now rewrite H. Qed.

Lemma bind_raise {A B} (m : M A) (f : A -> M B) (s s' : state) (e : exn) :
  m s = (s', Raise e) -> bind m f s = (s', Raise e).
Proof. intros H. unfold bind. now rewrite H. Qed.

Ltac run_step :=
  unfold bind, ret, raise, lift, emit, get_compute, set_instance_count, when;
  simpl.

(** C7. With [compute.instance_type] unset the entry point raises the usage
    error at once: whatever the recipe and the other arguments are, the
    state is the one it was called in, so the registry was not loaded, no
    recipe was loaded, nothing was cloned or resolved and the compute object
    is untouched. *)
Theorem instance_type_unset_raises_first (env : Env) (training_recipe : recipe_ref)
    (region_name : string) (recipe_overrides : option value)
    (requirements : option string) (role : option string) (st : state) :
  instance_type (st_compute st) = None ->
  _get_args_from_recipe env training_recipe region_name recipe_overrides
                        requirements role st
  = (st, Raise (ValueError
       "Must set `instance_type` in compute when using training recipes.")).
Proof.
  intros H. unfold _get_args_from_recipe. run_step. now rewrite H.
Qed.

Lemma instance_type_unset_raises_first_witness :
  _get_args_from_recipe friendly_env
    (RecipeCfg (VDict [("trainer", VDict [("num_nodes", VInt 2)])]))
    "us-west-2" None None None (init (mkCompute None (VInt 2)))
  = (init (mkCompute None (VInt 2)),
     Raise (ValueError
       "Must set `instance_type` in compute when using training recipes.")).
Proof.
  apply (instance_type_unset_raises_first friendly_env). reflexivity.
Defined.

(** C4. Expression resolution tries the recipe as it is, then the recipe
    nested under [recipes], then the recipe nested under [training], in
    that order, and stops at the first root that [OmegaConf.resolve] accepts:
    the log shows one attempt when the first root resolves, two when only
    the second does, three otherwise.  When all three fail the error is
    [RuntimeError], not the [ValueError] of a usage error. *)
Theorem resolution_root_order (env : Env) (recipe : value) (st : state) :
  let recipe' := fst (env_resolve env recipe) in
  let root2 := VDict [("recipes", recipe')] in
  let root3 := VDict [("training", recipe')] in
  let tried (l : list event) := mkState (st_compute st) (st_log st ++ l) in
  let out := resolve_final_recipe env recipe st in
  (snd (env_resolve env recipe) = true ->
     out = (tried [EvResolve None recipe], Ok recipe')) /\
  (snd (env_resolve env recipe) = false ->
   snd (env_resolve env root2) = true ->
     out = (tried [EvResolve None recipe; EvResolve (Some "recipes") root2],
            Py.getitem (fst (env_resolve env root2)) "recipes")) /\
  (snd (env_resolve env recipe) = false ->
   snd (env_resolve env root2) = false ->
   snd (env_resolve env root3) = true ->
     out = (tried [EvResolve None recipe; EvResolve (Some "recipes") root2;
                   EvResolve (Some "training") root3],
            Py.getitem (fst (env_resolve env root3)) "training")) /\
  (snd (env_resolve env recipe) = false ->
   snd (env_resolve env root2) = false ->
   snd (env_resolve env root3) = false ->
     out = (tried [EvResolve None recipe; EvResolve (Some "recipes") root2;
                   EvResolve (Some "training") root3],
            Raise (RuntimeError "Could not resolve provided recipe.")) /\
     is_usage_error (snd out) = false).
Proof.
  cbv zeta. unfold resolve_final_recipe, _try_resolve_recipe.
  destruct (env_resolve env recipe) as [a1 ok1] eqn:E1. simpl.
  destruct (env_resolve env (VDict [("recipes", a1)])) as [a2 ok2] eqn:E2.
  destruct (env_resolve env (VDict [("training", a1)])) as [a3 ok3] eqn:E3.
  simpl.
  split; [|split; [|split]].
  - intros ->. run_step. reflexivity.
  - intros -> ->. run_step. rewrite E2. simpl. rewrite <- app_assoc. simpl.
    destruct (Py.getitem a2 "recipes"); reflexivity.
  - intros -> -> ->. run_step. rewrite E2. simpl. rewrite E3. simpl.
    rewrite <- !app_assoc. simpl.
    destruct (Py.getitem a3 "training"); reflexivity.
  - intros -> -> ->. run_step. rewrite E2. simpl. rewrite E3. simpl.
    rewrite <- !app_assoc. simpl. split; reflexivity.
Qed.

(** The theorem in a world where nothing resolves: three attempts in the
    stated order, then the fatal error. *)
Lemma resolution_root_order_witness :
  let recipe := VDict [("trainer", VDict [("num_nodes", VInt 2)])] in
  let out := resolve_final_recipe unresolvable_env recipe
               (init (mkCompute (Some "ml.p4d.24xlarge") VNone)) in
  out = (mkState (mkCompute (Some "ml.p4d.24xlarge") VNone)
           [EvResolve None recipe;
            EvResolve (Some "recipes") (VDict [("recipes", recipe)]);
            EvResolve (Some "training") (VDict [("training", recipe)])],
         Raise (RuntimeError "Could not resolve provided recipe.")) /\
  is_usage_error (snd out) = false.
Proof.
  cbv zeta.
  apply (proj2 (proj2 (proj2
    (resolution_root_order unresolvable_env
       (VDict [("trainer", VDict [("num_nodes", VInt 2)])])
       (init (mkCompute (Some "ml.p4d.24xlarge") VNone))))));
    reflexivity.
Defined.

(** ** The schema classifier *)

Lemma is_nova_recipe_typed (recipe : value) (run training_config : dict)
    (model_type : string) :
  section_of recipe "run" = Some run ->
  section_of recipe "training_config" = Some training_config ->
  string_field run "model_type" = Some model_type ->
  _is_nova_recipe recipe
  = Ok (orb (vendor_marked run model_type) (distillation_given training_config)).
Proof.
  unfold section_of, string_field, _is_nova_recipe, vendor_marked,
    distillation_given.
  destruct recipe as [| | | | |d]; try discriminate.
  intros Hrun Htc Hmt. simpl.
  assert (Hget : forall k x, 
             match Py.assoc k d with
             | None => Some [] | Some (VDict x) => Some x | Some _ => None
             end = Some x ->
             match Py.assoc k d with Some v => v | None => VDict [] end = VDict x).
  { intros k x H. destruct (Py.assoc k d) as [[]|]; try discriminate;
      now inversion H. }
  rewrite (Hget _ _ Hrun), (Hget _ _ Htc). simpl.
  assert (Hm : match Py.assoc "model_type" run with
               | Some v => v | None => VStr "" end = VStr model_type).
  { destruct (Py.assoc "model_type" run) as [[]|]; try discriminate;
      now inversion Hmt. }
  rewrite Hm. cbn [Py.lower rbind Py.truthy].
  destruct (Py.assoc "distillation_data" training_config) as [dd|];
    destruct (PyStr.lower model_type) as [|c t].
  - reflexivity.
  - cbn [String.eqb negb].
    destruct (PyStr.contains "amazon.nova" (String c t)); reflexivity.
  - reflexivity.
  - cbn [String.eqb negb].
    destruct (PyStr.contains "amazon.nova" (String c t)); reflexivity.
Qed.

(** C2, as the code has it.  On a recipe whose [run] and [training_config]
    sections are mappings (or absent) and whose [run.model_type] is a string
    (or absent) the classifier returns, and it answers alternate exactly
    when (1) [run.model_type], lowered, contains [amazon.nova] and
    [run.model_name_or_path] is a key of [run], or (2)
    [training_config.distillation_data] is present and not null.  An empty
    value counts for (2): the test is [is not None]. *)
Theorem classifier_alternate_iff (recipe : value) (run training_config : dict)
    (model_type : string) :
  section_of recipe "run" = Some run ->
  section_of recipe "training_config" = Some training_config ->
  string_field run "model_type" = Some model_type ->
  exists alternate,
    _is_nova_recipe recipe = Ok alternate /\
    (alternate = true <->
       (PyStr.contains "amazon.nova" (PyStr.lower model_type) = true /\
        Py.has_key "model_name_or_path" run = true) \/
       (exists v, Py.assoc "distillation_data" training_config = Some v /\
                  v <> VNone)).
Proof.
  intros Hrun Htc Hmt.
  eexists. split; [exact (is_nova_recipe_typed _ _ _ _ Hrun Htc Hmt)|].
  unfold vendor_marked, distillation_given.
  rewrite orb_true_iff, andb_true_iff.
  split; (intros [H|H]; [left; exact H | right]).
  - destruct (Py.assoc "distillation_data" training_config) as [v|];
      [|discriminate].
    exists v. split; [reflexivity|]. intros ->. discriminate.
  - destruct H as (v & -> & Hv). destruct v; try reflexivity. congruence.
Qed.

(** The theorem on the recipe of scenario B. *)
Lemma classifier_alternate_iff_witness :
  exists alternate,
    _is_nova_recipe
      (VDict [("run", VDict [("model_type", VStr "amazon.nova-micro");
                             ("model_name_or_path", VStr "s3://bucket/model")])])
    = Ok alternate /\
    (alternate = true <->
       (PyStr.contains "amazon.nova" (PyStr.lower "amazon.nova-micro") = true /\
        Py.has_key "model_name_or_path"
          [("model_type", VStr "amazon.nova-micro");
           ("model_name_or_path", VStr "s3://bucket/model")] = true) \/
       (exists v, Py.assoc "distillation_data" [] = Some v /\ v <> VNone)).
Proof.
  apply (@classifier_alternate_iff
           (VDict [("run", VDict [("model_type", VStr "amazon.nova-micro");
                                  ("model_name_or_path",
                                   VStr "s3://bucket/model")])])
           [("model_type", VStr "amazon.nova-micro");
            ("model_name_or_path", VStr "s3://bucket/model")]
           [] "amazon.nova-micro"); reflexivity.
Defined.

(** C2 as stated fails: a recipe whose only content is an empty
    [training_config.distillation_data] is classified alternate, although
    it has no vendor marker and its distillation data is empty. *)
Lemma classifier_empty_distillation_is_alternate :
  let training_config := [("distillation_data", VStr "")] in
  let recipe := VDict [("training_config", VDict training_config)] in
  section_of recipe "run" = Some [] /\
  section_of recipe "training_config" = Some training_config /\
  string_field [] "model_type" = Some "" /\
  _is_nova_recipe recipe = Ok true /\
  spec_is_alternate [] training_config "" = false.
Proof. cbv zeta. repeat split. Qed.

(** ** The entry point up to the choice of a path *)

Lemma bind_ok_inv {A B} (m : M A) (f : A -> M B) (s s2 : state) (b : B) :
  bind m f s = (s2, Ok b) ->
  exists a s1, m s = (s1, Ok a) /\ f a s1 = (s2, Ok b).
Proof.
  unfold bind. destruct (m s) as [s1 [a|e]]; intros H.
  - now exists a, s1.
  - discriminate.
Qed.

Lemma entry_dispatch (env : Env) (training_recipe : recipe_ref)
    (region_name : string) (recipe_overrides : option value)
    (requirements : option string) (role : option string)
    (st st2 : state) (itype : string) (cfg recipe : value) :
  instance_type (st_compute st) = Some itype ->
  env_recipes_cfg env = Ok cfg ->
  recipe_of_reference env training_recipe recipe_overrides cfg
    (logged st [EvLoadRecipesCfg]) = (st2, Ok recipe) ->
  _get_args_from_recipe env training_recipe region_name recipe_overrides
                        requirements role st
  = match _is_nova_recipe recipe with
    | Raise e => (st2, Raise e)
    | Ok true => _get_args_from_nova_recipe env recipe role st2
    | Ok false =>
        match Py.contains "trainer" recipe with
        | Raise e => (st2, Raise e)
        | Ok false =>
            (st2, Raise (ValueError
                    "Supplied recipe does not contain required field trainer."))
        | Ok true =>
            standard_path env cfg recipe itype region_name requirements st2
        end
    end.
Proof.
  intros Htype Hcfg Hload.
  unfold _get_args_from_recipe, _load_recipes_cfg.
  unfold bind at 1. unfold get_compute. rewrite Htype.
  unfold bind at 1. unfold bind at 1. unfold emit, lift. rewrite Hcfg.
  unfold logged in Hload.
  unfold bind at 1. rewrite Hload.
  unfold bind at 1. unfold lift.
  destruct (_is_nova_recipe recipe) as [[|]|e]; try reflexivity.
  unfold bind at 1.
  destruct (Py.contains "trainer" recipe) as [[|]|e]; reflexivity.
Qed.

(** ** The device class *)

Lemma standard_path_unsupported_device (env : Env) (cfg recipe : value)
    (itype region_name : string) (requirements : option string)
    (st st1 : state) :
  _determine_device_type itype = Ok "cpu" ->
  set_instance_count_block recipe st = (st1, Ok tt) ->
  requirements_not_found env requirements = false ->
  standard_path env cfg recipe itype region_name requirements st
  = (logged st1 [EvMkTempDir "training_"],
     Raise (ValueError
              "Devices of type cpu are not supported with training recipes.")).
Proof.
  intros Hdev Hblock Hreq. unfold standard_path, check_requirements.
  rewrite (bind_ok _ _ _ _ _ Hblock). rewrite Hreq, Hdev. reflexivity.
Qed.

Lemma standard_path_unsupported_never_ok (env : Env) (cfg recipe : value)
    (itype region_name : string) (requirements : option string)
    (st st2 : state) (x : Args * string) :
  _determine_device_type itype = Ok "cpu" ->
  standard_path env cfg recipe itype region_name requirements st <> (st2, Ok x).
Proof.
  intros Hdev H. unfold standard_path in H. rewrite Hdev in H.
  apply bind_ok_inv in H. destruct H as (_ & s1 & _ & H).
  apply bind_ok_inv in H. destruct H as (_ & s1' & _ & H).
  revert H. run_step. discriminate.
Qed.

(** ** Required fields of the standard path *)










(** ** What touches the compute object *)

Lemma keeps_ret {A} (a : A) : keeps_compute (ret a).
Proof. intros s. reflexivity. Qed.

Lemma keeps_raise {A} (e : exn) : keeps_compute (@raise A e).
Proof. intros s. reflexivity. Qed.

Lemma keeps_lift {A} (r : result A) : keeps_compute (lift r).
Proof. intros s. reflexivity. Qed.

Lemma keeps_emit (e : event) : keeps_compute (emit e).
Proof. intros s. reflexivity. Qed.

Lemma keeps_get_compute : keeps_compute get_compute.
Proof. intros s. reflexivity. Qed.

Lemma keeps_bind {A B} (m : M A) (f : A -> M B) :
  keeps_compute m -> (forall a, keeps_compute (f a)) -> keeps_compute (bind m f).
Proof.
  intros Hm Hf s. unfold bind. specialize (Hm s).
  destruct (m s) as [s1 [a|e]]; simpl in *.
  - now rewrite Hf.
  - exact Hm.
Qed.

Create HintDb keeps discriminated.
#[local] Hint Resolve keeps_ret keeps_raise keeps_lift keeps_emit
  keeps_get_compute : keeps.

Ltac keeps :=
  repeat first
    [ progress auto with keeps
    | apply keeps_bind; [|intros]
    | match goal with
      | |- keeps_compute (match ?x with _ => _ end) => destruct x
      end
    | progress unfold when, clone ].

Lemma keeps_resolve_final_recipe (env : Env) (recipe : value) :
  keeps_compute (resolve_final_recipe env recipe).
Proof. unfold resolve_final_recipe, _try_resolve_recipe. keeps. Qed.

Lemma keeps_configure_gpu_args (env : Env) (cfg recipe : value)
    (region_name dir : string) :
  keeps_compute (_configure_gpu_args env cfg region_name recipe dir).
Proof. unfold _configure_gpu_args. keeps. Qed.

Lemma keeps_configure_trainium_args (env : Env) (cfg : value)
    (region_name dir : string) :
  keeps_compute (_configure_trainium_args env cfg region_name dir).
Proof. unfold _configure_trainium_args. keeps. Qed.

#[local] Hint Resolve keeps_resolve_final_recipe keeps_configure_gpu_args
  keeps_configure_trainium_args : keeps.

(** After the instance-count block the standard path only reads the compute
    object. *)
Lemma standard_path_compute (env : Env) (cfg recipe : value)
    (itype region_name : string) (requirements : option string)
    (st st1 : state) (r : result unit) :
  set_instance_count_block recipe st = (st1, r) ->
  st_compute (fst (standard_path env cfg recipe itype region_name requirements
                                 st))
  = st_compute st1.
Proof.
  intros Hblock. unfold standard_path. unfold bind at 1. rewrite Hblock.
  destruct r as [[]|e]; [|reflexivity].
  match goal with
  | |- st_compute (fst (?rest st1)) = _ =>
      assert (H : keeps_compute rest); [|apply H]
  end.
  unfold check_requirements. keeps.
Qed.

(** After its instance-count block the alternate builder only reads the
    compute object. *)
Lemma nova_compute (env : Env) (recipe : value) (role : option string)
    (st st1 : state) (r : result unit) :
  nova_instance_count_block recipe st = (st1, r) ->
  st_compute (fst (_get_args_from_nova_recipe env recipe role st))
  = st_compute st1.
Proof.
  intros Hblock. unfold _get_args_from_nova_recipe. unfold bind at 1.
  rewrite Hblock. destruct r as [[]|e]; [|reflexivity].
  match goal with
  | |- st_compute (fst (?rest st1)) = _ =>
      assert (H : keeps_compute rest); [|apply H]
  end.
  keeps.
Qed.

(** ** Instance count on the standard path *)

(** C6, as the code has it.  With a [trainer] section that is a mapping:
    a supplied [compute.instance_count] is kept when the recipe has
    [trainer.num_nodes], and the warning is logged when that count is
    truthy (a count of 0 is kept silently); an omitted count is filled in
    place from [trainer.num_nodes]; with neither the usage error is raised
    and nothing changes.  The rest of the standard path leaves the count
    the block chose. *)
Theorem standard_instance_count (env : Env) (cfg recipe : value)
    (trainer : dict) (itype region_name : string)
    (requirements : option string) (st : state) :
  Py.getitem recipe "trainer" = Ok (VDict trainer) ->
  let c := st_compute st in
  let rest := standard_path env cfg recipe itype region_name requirements st in
  (instance_count c <> VNone -> Py.has_key "num_nodes" trainer = true ->
     set_instance_count_block recipe st
     = (logged st (if Py.truthy (instance_count c)
                   then [EvWarnNumNodesIgnored c] else []), Ok tt) /\
     st_compute (fst rest) = c) /\
  (forall n,
     instance_count c = VNone -> Py.assoc "num_nodes" trainer = Some n ->
     set_instance_count_block recipe st
     = (mkState (mkCompute (instance_type c) n) (st_log st), Ok tt) /\
     st_compute (fst rest) = mkCompute (instance_type c) n) /\
  (instance_count c = VNone -> Py.has_key "num_nodes" trainer = false ->
     set_instance_count_block recipe st
     = (st, Raise (ValueError
          "Must provide Compute with instance_count or set trainer -> num_nodes in recipe.")) /\
     rest = (st, Raise (ValueError
          "Must provide Compute with instance_count or set trainer -> num_nodes in recipe."))).
Proof.
  intros Htrainer. cbv zeta.
  assert (Hkeep : forall st1 r,
            set_instance_count_block recipe st = (st1, r) ->
            st_compute (fst (standard_path env cfg recipe itype region_name
                                           requirements st)) = st_compute st1).
  { intros st1 r. apply standard_path_compute. }
  split; [|split].
  - intros Hsome Hkey.
    assert (Hblock :
      set_instance_count_block recipe st
      = (logged st (if Py.truthy (instance_count (st_compute st))
                    then [EvWarnNumNodesIgnored (st_compute st)] else []),
         Ok tt)).
    { unfold set_instance_count_block. run_step. rewrite Htrainer. simpl.
      rewrite Hkey.
      destruct (instance_count (st_compute st)) eqn:Hc;
        try contradiction; simpl;
        repeat match goal with
               | |- context [if ?b then _ else _] => destruct b; simpl
               end;
        unfold logged; rewrite ?app_nil_r; destruct st; reflexivity. }
    split; [exact Hblock|]. rewrite (Hkeep _ _ Hblock). reflexivity.
  - intros n Hnone Hn.
    assert (Hblock :
      set_instance_count_block recipe st
      = (mkState (mkCompute (instance_type (st_compute st)) n) (st_log st),
         Ok tt)).
    { unfold set_instance_count_block. run_step. rewrite Hnone. simpl.
      rewrite Htrainer. simpl. unfold Py.has_key. rewrite Hn. reflexivity. }
    split; [exact Hblock|]. rewrite (Hkeep _ _ Hblock). reflexivity.
  - intros Hnone Hkey.
    assert (Hblock :
      set_instance_count_block recipe st
      = (st, Raise (ValueError
           "Must provide Compute with instance_count or set trainer -> num_nodes in recipe."))).
    { unfold set_instance_count_block. run_step. rewrite Hnone. simpl.
      rewrite Htrainer. simpl. rewrite Hkey. reflexivity. }
    split; [exact Hblock|].
    unfold standard_path. apply bind_raise. exact Hblock.
Qed.

(** The theorem on the recipe of scenario A: the count is filled in. *)
Lemma standard_instance_count_witness :
  let recipe := VDict [("trainer", VDict [("num_nodes", VInt 2)]);
                       ("model", VDict [("model_type", VStr "llama-7b")])] in
  let c := mkCompute (Some "ml.p4d.24xlarge") VNone in
  set_instance_count_block recipe (init c)
  = (mkState (mkCompute (Some "ml.p4d.24xlarge") (VInt 2)) [], Ok tt) /\
  st_compute (fst (standard_path friendly_env registry_cfg recipe
                                 "ml.p4d.24xlarge" "us-west-2" None (init c)))
  = mkCompute (Some "ml.p4d.24xlarge") (VInt 2).
Proof.
  cbv zeta.
  destruct (standard_instance_count friendly_env registry_cfg
              (VDict [("trainer", VDict [("num_nodes", VInt 2)]);
                      ("model", VDict [("model_type", VStr "llama-7b")])])
              [("num_nodes", VInt 2)] "ml.p4d.24xlarge" "us-west-2" None
              (init (mkCompute (Some "ml.p4d.24xlarge") VNone)) eq_refl)
    as (_ & Hfill & _).
  exact (Hfill (VInt 2) eq_refl eq_refl).
Defined.

(** C6 as stated fails at a supplied count of 0: the count is kept, and no
    warning is logged although the recipe has [trainer.num_nodes]. *)
Lemma zero_instance_count_kept_silently :
  let recipe := VDict [("trainer", VDict [("num_nodes", VInt 2)])] in
  let c := mkCompute (Some "ml.p4d.24xlarge") (VInt 0) in
  Py.is_none (instance_count c) = false /\
  Py.contains "num_nodes" (VDict [("num_nodes", VInt 2)]) = Ok true /\
  set_instance_count_block recipe (init c) = (init c, Ok tt) /\
  st_log (fst (set_instance_count_block recipe (init c))) = [].
Proof. cbv zeta. repeat split. Qed.

(** ** The alternate builder *)

Lemma assoc_set (k k' : string) (v : value) (d : dict) :
  Py.assoc k' (Py.set k v d) = if String.eqb k' k then Some v else Py.assoc k' d.
Proof.
  induction d as [|[k0 v0] t IH]; simpl.
  - reflexivity.
  - destruct (String.eqb k k0) eqn:Hk; simpl.
    + apply String.eqb_eq in Hk. subst k0.
      destruct (String.eqb k' k); reflexivity.
    + destruct (String.eqb k' k0) eqn:Hk0.
      * apply String.eqb_eq in Hk0. subst k0.
        rewrite String.eqb_sym in Hk. now rewrite Hk.
      * exact IH.
Qed.

Lemma section_get (recipe : value) (k : string) (x : dict) :
  section_of recipe k = Some x ->
  Py.cfg_get recipe k (VDict []) = Ok (VDict x).
Proof.
  unfold section_of, Py.cfg_get, Py.get. destruct recipe; try discriminate.
  destruct (Py.assoc k d) as [[]|]; try discriminate; intros H;
    now inversion H.
Qed.

Lemma run_replicas_typed (recipe : value) (run : dict) :
  section_of recipe "run" = Some run ->
  run_replicas recipe = Ok (field_or_none run "replicas").
Proof.
  intros H. unfold run_replicas. rewrite (section_get _ _ _ H). reflexivity.
Qed.

Lemma nova_count_missing (recipe : value) (st : state) (r : value) :
  Py.truthy (instance_count (st_compute st)) = false ->
  run_replicas recipe = Ok r -> Py.truthy r = false ->
  nova_instance_count_block recipe st
  = (st, Raise (ValueError
       "Must set ``instance_type`` in compute or ``replicas`` in recipe.")).
Proof.
  intros Hc Hr Ht. unfold nova_instance_count_block. run_step.
  rewrite Hc, Hr. simpl. rewrite Ht. reflexivity.
Qed.

Lemma nova_count_from_replicas (recipe : value) (st : state) (r : value) :
  Py.truthy (instance_count (st_compute st)) = false ->
  run_replicas recipe = Ok r -> Py.truthy r = true ->
  nova_instance_count_block recipe st
  = (mkState (mkCompute (instance_type (st_compute st)) r) (st_log st), Ok tt).
Proof.
  intros Hc Hr Ht. unfold nova_instance_count_block. run_step.
  rewrite Hc, Hr. simpl. rewrite Ht. reflexivity.
Qed.

Lemma nova_count_supplied (recipe : value) (st : state) :
  Py.truthy (instance_count (st_compute st)) = true ->
  nova_instance_count_block recipe st = (st, Ok tt).
Proof.
  intros Hc. unfold nova_instance_count_block. run_step. rewrite Hc. simpl.
  destruct st as [[ty n] log]. reflexivity.
Qed.

Lemma nova_hyperparameters_typed (recipe : value) (role : option string)
    (run training_config : dict) :
  section_of recipe "run" = Some run ->
  model_path_ok run = true ->
  section_of recipe "training_config" = Some training_config ->
  nova_hyperparameters recipe role
  = let dd := field_or_none training_config "distillation_data" in
    let kms_key := field_or_none training_config "kms_key" in
    if Py.truthy dd then
      match role with
      | Some r =>
          if role_missing role then Raise (ValueError role_required)
          else if Py.is_none kms_key then Raise (ValueError kms_key_required)
          else Ok (Py.set "kms_key" kms_key
                     (Py.set "role_arn" (VStr r)
                        (Py.set "distillation_data" dd (base_model_entry run))))
      | None => Raise (ValueError role_required)
      end
    else Ok (base_model_entry run).
Proof.
  intros Hrun Hpath Htc. unfold nova_hyperparameters.
  rewrite (section_get _ _ _ Hrun), (section_get _ _ _ Htc).
  cbn [rbind Py.cfg_get Py.get]. unfold model_path_ok in Hpath.
  unfold base_model_entry, field_or_none.
  destruct (Py.assoc "model_name_or_path" run) as [[|b|z|s|l|d]|];
    cbn [rbind Py.truthy Py.startswith] in *.
  - reflexivity.
  - destruct b; [discriminate | reflexivity].
  - destruct (Z.eqb z 0); [reflexivity | discriminate].
  - destruct (negb (String.eqb s "")); [|reflexivity].
    cbn [rbind]. destruct (PyStr.startswith "s3://" s); reflexivity.
  - destruct l; [reflexivity | discriminate].
  - destruct d; [reflexivity | discriminate].
  - reflexivity.
Qed.

Lemma nova_block_cases (recipe : value) (run : dict) (st : state) :
  section_of recipe "run" = Some run ->
  (count_available run (st_compute st) /\
   exists st1, nova_instance_count_block recipe st = (st1, Ok tt)) \/
  (nova_instance_count_block recipe st
   = (st, Raise (ValueError
        "Must set ``instance_type`` in compute or ``replicas`` in recipe."))).
Proof.
  intros Hrun. pose proof (run_replicas_typed _ _ Hrun) as Hrep.
  unfold count_available.
  destruct (Py.truthy (instance_count (st_compute st))) eqn:Hc.
  - left. split; [now left|]. eexists. now apply nova_count_supplied.
  - destruct (Py.truthy (field_or_none run "replicas")) eqn:Hr.
    + left. split; [now right|]. eexists.
      now apply (nova_count_from_replicas _ _ _ Hc Hrep).
    + right. now apply (nova_count_missing _ _ _ Hc Hrep).
Qed.

Lemma nova_block_available (recipe : value) (run : dict) (st : state) :
  section_of recipe "run" = Some run ->
  count_available run (st_compute st) ->
  exists st1, nova_instance_count_block recipe st = (st1, Ok tt).
Proof.
  intros Hrun Hav. pose proof (run_replicas_typed _ _ Hrun) as Hrep.
  destruct (Py.truthy (instance_count (st_compute st))) eqn:Hc.
  - eexists. now apply nova_count_supplied.
  - destruct Hav as [Hav|Hav]; [congruence|].
    eexists. now apply (nova_count_from_replicas _ _ _ Hc Hrep).
Qed.

Lemma nova_hyperparameters_raise (env : Env) (recipe : value)
    (role : option string) (st st1 : state) (e : exn) :
  nova_instance_count_block recipe st = (st1, Ok tt) ->
  nova_hyperparameters recipe role = Raise e ->
  _get_args_from_nova_recipe env recipe role st = (st1, Raise e).
Proof.
  intros Hblock Hhp. unfold _get_args_from_nova_recipe.
  rewrite (bind_ok _ _ _ _ _ Hblock). unfold bind at 1, lift.
  now rewrite Hhp.
Qed.

Lemma nova_returns (env : Env) (recipe : value) (role : option string)
    (st st1 : state) (hp : dict) (final : value) :
  nova_instance_count_block recipe st = (st1, Ok tt) ->
  nova_hyperparameters recipe role = Ok hp ->
  (forall s, snd (resolve_final_recipe env recipe s) = Ok final) ->
  exists st2,
    _get_args_from_nova_recipe env recipe role st
    = (st2, Ok (mkArgs None None None (st_compute st1) hp,
                env_tmpdir env "recipe_")).
Proof.
  intros Hblock Hhp Hres. unfold _get_args_from_nova_recipe.
  rewrite (bind_ok _ _ _ _ _ Hblock). unfold bind at 1, lift. rewrite Hhp.
  unfold bind at 1, emit at 1. unfold bind at 1.
  pose proof (keeps_resolve_final_recipe env recipe
                (mkState (st_compute st1) (st_log st1 ++ [EvRegisterResolvers])))
    as Hkeep.
  specialize (Hres (mkState (st_compute st1)
                            (st_log st1 ++ [EvRegisterResolvers]))).
  destruct (resolve_final_recipe env recipe
              (mkState (st_compute st1) (st_log st1 ++ [EvRegisterResolvers])))
    as [s2 res].
  simpl in Hres, Hkeep. subst res. run_step. rewrite Hkeep.
  eexists. reflexivity.
Qed.

(** C3, as the code has it.  Take a recipe whose [run] and
    [training_config] sections are mappings, whose
    [run.model_name_or_path] is a string when it is there and truthy, and
    whose distillation data is present and non-empty (truthy).  Then the
    alternate builder ends in a
    usage error when [role] is missing, and when
    [training_config.kms_key] is missing or null; when an instance count is
    available these are the errors that name the role and the key.  With
    both provided, an instance count available and a recipe that resolves,
    it returns a bundle whose hyperparameters hold [distillation_data],
    [role_arn] and [kms_key]. *)
Theorem distillation_requires_role_and_kms_key (env : Env) (recipe : value)
    (role : option string) (st : state) (run training_config : dict)
    (dd : value) :
  section_of recipe "run" = Some run ->
  model_path_ok run = true ->
  section_of recipe "training_config" = Some training_config ->
  Py.assoc "distillation_data" training_config = Some dd ->
  Py.truthy dd = true ->
  let out := _get_args_from_nova_recipe env recipe role st in
  let kms_key := field_or_none training_config "kms_key" in
  (role_missing role = true -> is_usage_error (snd out) = true) /\
  (kms_key = VNone -> is_usage_error (snd out) = true) /\
  (count_available run (st_compute st) ->
     (role_missing role = true ->
        snd out = Raise (ValueError role_required)) /\
     (role_missing role = false -> kms_key = VNone ->
        snd out = Raise (ValueError kms_key_required)) /\
     (forall r final,
        role = Some r -> role_missing role = false -> kms_key <> VNone ->
        (forall s, snd (resolve_final_recipe env recipe s) = Ok final) ->
        exists args dir,
          snd out = Ok (args, dir) /\
          Py.assoc "distillation_data" (a_hyperparameters args) = Some dd /\
          Py.assoc "role_arn" (a_hyperparameters args) = Some (VStr r) /\
          Py.assoc "kms_key" (a_hyperparameters args) = Some kms_key)).
Proof.
  intros Hrun Hpath Htc Hdd Htruthy. cbv zeta.
  pose proof (nova_hyperparameters_typed recipe role _ _ Hrun Hpath Htc) as Hhp.
  cbv zeta in Hhp.
  assert (Hfield : field_or_none training_config "distillation_data" = dd).
  { unfold field_or_none. now rewrite Hdd. }
  rewrite Hfield, Htruthy in Hhp.
  assert (Hrole : role_missing role = true ->
                  nova_hyperparameters recipe role
                  = Raise (ValueError role_required)).
  { intros Hm. rewrite Hhp. destruct role; [|reflexivity]. now rewrite Hm. }
  assert (Hkms : role_missing role = false ->
                 field_or_none training_config "kms_key" = VNone ->
                 nova_hyperparameters recipe role
                 = Raise (ValueError kms_key_required)).
  { intros Hm Hk. rewrite Hhp. destruct role; [|discriminate Hm].
    now rewrite Hm, Hk. }
  split; [|split].
  - intros Hm. destruct (nova_block_cases recipe run st Hrun)
      as [[_ [st1 Hblock]] | Hblock].
    + now rewrite (nova_hyperparameters_raise env _ _ _ _ _ Hblock (Hrole Hm)).
    + unfold _get_args_from_nova_recipe.
      now rewrite (bind_raise _ _ _ _ _ Hblock).
  - intros Hk. destruct (nova_block_cases recipe run st Hrun)
      as [[_ [st1 Hblock]] | Hblock].
    + destruct (role_missing role) eqn:Hm.
      * now rewrite (nova_hyperparameters_raise env _ _ _ _ _ Hblock
                       (Hrole eq_refl)).
      * now rewrite (nova_hyperparameters_raise env _ _ _ _ _ Hblock
                       (Hkms eq_refl Hk)).
    + unfold _get_args_from_nova_recipe.
      now rewrite (bind_raise _ _ _ _ _ Hblock).
  - intros Hav. destruct (nova_block_available recipe run st Hrun Hav)
      as [st1 Hblock].
    split; [|split].
    + intros Hm.
      now rewrite (nova_hyperparameters_raise env _ _ _ _ _ Hblock (Hrole Hm)).
    + intros Hm Hk.
      now rewrite (nova_hyperparameters_raise env _ _ _ _ _ Hblock
                     (Hkms Hm Hk)).
    + intros r final -> Hm Hk Hres. rewrite Hm in Hhp.
      assert (Hnone : Py.is_none (field_or_none training_config "kms_key")
                      = false).
      { destruct (field_or_none training_config "kms_key");
          try reflexivity. congruence. }
      rewrite Hnone in Hhp.
      destruct (nova_returns env _ _ _ _ _ _ Hblock Hhp Hres) as [st2 Hout].
      rewrite Hout. do 2 eexists. split; [reflexivity|].
      simpl. rewrite !assoc_set. simpl. auto.
Qed.

(** The theorem on a distillation recipe with a role and a key. *)
Lemma distillation_requires_role_and_kms_key_witness :
  let run := [("model_type", VStr "amazon.nova-micro");
              ("model_name_or_path", VStr "s3://bucket/model")] in
  let training_config := [("distillation_data", VStr "s3://bucket/data");
                          ("kms_key", VStr "key-1")] in
  let recipe := VDict [("run", VDict run);
                       ("training_config", VDict training_config)] in
  let st := init (mkCompute (Some "ml.p4d.24xlarge") (VInt 4)) in
  exists args dir,
    snd (_get_args_from_nova_recipe friendly_env recipe (Some "role-1") st)
    = Ok (args, dir) /\
    Py.assoc "distillation_data" (a_hyperparameters args)
    = Some (VStr "s3://bucket/data") /\
    Py.assoc "role_arn" (a_hyperparameters args) = Some (VStr "role-1") /\
    Py.assoc "kms_key" (a_hyperparameters args)
    = Some (field_or_none training_config "kms_key").
Proof.
  cbv zeta.
  destruct (distillation_requires_role_and_kms_key friendly_env
              (VDict [("run", VDict [("model_type", VStr "amazon.nova-micro");
                                     ("model_name_or_path",
                                      VStr "s3://bucket/model")]);
                      ("training_config",
                       VDict [("distillation_data", VStr "s3://bucket/data");
                              ("kms_key", VStr "key-1")])])
              (Some "role-1")
              (init (mkCompute (Some "ml.p4d.24xlarge") (VInt 4)))
              [("model_type", VStr "amazon.nova-micro");
               ("model_name_or_path", VStr "s3://bucket/model")]
              [("distillation_data", VStr "s3://bucket/data");
               ("kms_key", VStr "key-1")]
              (VStr "s3://bucket/data")
              eq_refl eq_refl eq_refl eq_refl eq_refl) as (_ & _ & Hav).
  destruct (Hav (or_introl eq_refl)) as (_ & _ & Hok).
  apply (Hok "role-1"
             (VDict [("run", VDict [("model_type", VStr "amazon.nova-micro");
                                    ("model_name_or_path",
                                     VStr "s3://bucket/model")]);
                     ("training_config",
                      VDict [("distillation_data", VStr "s3://bucket/data");
                             ("kms_key", VStr "key-1")])])).
  - reflexivity.
  - reflexivity.
  - discriminate.
  - intros s. reflexivity.
Defined.

(** C3 as stated fails when the distillation data is present and empty:
    the recipe is on the alternate path, no role is given, and the builder
    returns. *)
Lemma empty_distillation_skips_validation :
  let training_config := [("distillation_data", VStr "")] in
  let recipe := VDict [("training_config", VDict training_config)] in
  let st := init (mkCompute (Some "ml.p4d.24xlarge") (VInt 4)) in
  _is_nova_recipe recipe = Ok true /\
  Py.has_key "distillation_data" training_config = true /\
  role_missing None = true /\
  field_or_none training_config "kms_key" = VNone /\
  returned (_get_args_from_nova_recipe friendly_env recipe None st) = true.
Proof. cbv zeta. repeat split. Qed.

(** C9, as the code has it.  When [compute.instance_count] is falsy and
    [run.replicas] is truthy, the alternate builder stores the replica
    count in the caller's compute object first: whatever happens next, the
    object holds it when the call ends.  In particular, on a recipe with
    distillation data, the usage errors for a missing role and for a
    missing key leave the count assigned (and nothing logged). *)
Theorem replicas_assigned_before_validation (env : Env) (recipe : value)
    (role : option string) (st : state) (r : value) :
  Py.truthy (instance_count (st_compute st)) = false ->
  run_replicas recipe = Ok r ->
  Py.truthy r = true ->
  let out := _get_args_from_nova_recipe env recipe role st in
  let assigned := mkCompute (instance_type (st_compute st)) r in
  st_compute (fst out) = assigned /\
  (forall run training_config,
     section_of recipe "run" = Some run ->
     model_path_ok run = true ->
     section_of recipe "training_config" = Some training_config ->
     Py.truthy (field_or_none training_config "distillation_data") = true ->
     (role_missing role = true ->
        out = (mkState assigned (st_log st),
               Raise (ValueError role_required))) /\
     (role_missing role = false ->
      field_or_none training_config "kms_key" = VNone ->
        out = (mkState assigned (st_log st),
               Raise (ValueError kms_key_required)))).
Proof.
  intros Hc Hrep Hr. cbv zeta.
  pose proof (nova_count_from_replicas recipe st r Hc Hrep Hr) as Hblock.
  split.
  - rewrite (nova_compute env recipe role st _ _ Hblock). reflexivity.
  - intros run training_config Hrun Hpath Htc Hdd.
    pose proof (nova_hyperparameters_typed recipe role _ _ Hrun Hpath Htc)
      as Hhp.
    cbv zeta in Hhp. rewrite Hdd in Hhp. split.
    + intros Hm. apply (nova_hyperparameters_raise env _ _ _ _ _ Hblock).
      rewrite Hhp. destruct role; [|reflexivity]. now rewrite Hm.
    + intros Hm Hk. apply (nova_hyperparameters_raise env _ _ _ _ _ Hblock).
      rewrite Hhp. destruct role; [|discriminate Hm]. now rewrite Hm, Hk.
Qed.

(** The theorem on a distillation recipe with two replicas and no role. *)
Lemma replicas_assigned_before_validation_witness :
  let recipe :=
    VDict [("run", VDict [("replicas", VInt 2)]);
           ("training_config",
            VDict [("distillation_data", VStr "s3://bucket/data")])] in
  let st := init (mkCompute (Some "ml.p4d.24xlarge") VNone) in
  _get_args_from_nova_recipe friendly_env recipe None st
  = (mkState (mkCompute (Some "ml.p4d.24xlarge") (VInt 2)) [],
     Raise (ValueError role_required)).
Proof.
  cbv zeta.
  destruct (replicas_assigned_before_validation friendly_env
              (VDict [("run", VDict [("replicas", VInt 2)]);
                      ("training_config",
                       VDict [("distillation_data",
                               VStr "s3://bucket/data")])])
              None (init (mkCompute (Some "ml.p4d.24xlarge") VNone))
              (VInt 2) eq_refl eq_refl eq_refl) as [_ Hraise].
  destruct (Hraise [("replicas", VInt 2)]
                   [("distillation_data", VStr "s3://bucket/data")]
                   eq_refl eq_refl eq_refl eq_refl) as [Hrole _].
  exact (Hrole eq_refl).
Defined.

(** C9 as stated fails when the recipe provides a replica count of 0: the
    builder raises at its first statement and the compute object keeps its
    unset count. *)
Lemma zero_replicas_not_assigned :
  let recipe := VDict [("run", VDict [("replicas", VInt 0)]);
                       ("training_config",
                        VDict [("distillation_data",
                                VStr "s3://bucket/data")])] in
  let st := init (mkCompute (Some "ml.p4d.24xlarge") VNone) in
  let out := _get_args_from_nova_recipe friendly_env recipe None st in
  run_replicas recipe = Ok (VInt 0) /\
  out = (st, Raise (ValueError
           "Must set ``instance_type`` in compute or ``replicas`` in recipe.")) /\
  instance_count (st_compute (fst out)) = VNone.
Proof. cbv zeta. repeat split. Qed.

(** ** Overrides *)








(** What [_load_base_recipe] returns is the merge of the recipe it loaded
    with the overrides. *)
Lemma load_base_recipe_merges (env : Env) (name : string)
    (overrides : option value) (cfg : option value) (st st2 : state)
    (merged : value) :
  _load_base_recipe env name overrides cfg st = (st2, Ok merged) ->
  exists src loaded,
    env_load_yaml env src = Ok loaded /\
    merged = merge loaded match overrides with
                          | Some o => o
                          | None => VDict []
                          end.
Proof.
  unfold _load_base_recipe. intros H.
  apply bind_ok_inv in H. destruct H as (src & s1 & _ & H).
  apply bind_ok_inv in H. destruct H as (_ & s2 & _ & H).
  apply bind_ok_inv in H. destruct H as (loaded & s3 & Hload & H).
  unfold lift in Hload. inversion Hload as [[Hs Hl]].
  unfold ret in H. inversion H. exists src, loaded. split; [exact Hl|].
  reflexivity.
Qed.




(** * Further properties of the module *)

(** ** The table of gpu model families *)

Lemma prefix_cons (a : ascii) (p s : string) :
  String.prefix (String a p) s = true ->
  exists t, s = String a t /\ String.prefix p t = true.
Proof.
  destruct s as [|b t]; simpl; [discriminate|].
  destruct (ascii_dec a b) as [->|]; [eauto | discriminate].
Qed.

Lemma prefix_cons_ne (a b : ascii) (p t : string) :
  a <> b -> String.prefix (String a p) (String b t) = false.
Proof.
  intros Hne. simpl. destruct (ascii_dec a b); [contradiction | reflexivity].
Qed.

Ltac other_family :=
  rewrite prefix_cons_ne by (intros Heq; discriminate Heq).

Lemma family_script (family model_type : string) :
  In family supported_families ->
  PyStr.startswith family model_type = true ->
  _get_trainining_recipe_gpu_model_name_and_script (VStr model_type)
  = Ok (family, family ++ "_pretrain.py").
Proof.
  unfold supported_families, PyStr.startswith. simpl.
  intros [<-|[<-|[<-|[<-|[]]]]] H;
    unfold _get_trainining_recipe_gpu_model_name_and_script,
      model_type_to_script, first_family_prefix, PyStr.startswith.
  - rewrite H. reflexivity.
  - destruct (prefix_cons _ _ _ H) as (t & -> & _).
    other_family. rewrite H. reflexivity.
  - destruct (prefix_cons _ _ _ H) as (t1 & -> & H1).
    destruct (prefix_cons _ _ _ H1) as (t2 & -> & H2).
    destruct (prefix_cons _ _ _ H2) as (t3 & -> & _).
    other_family.
    assert (Hmis : String.prefix "mistral" (String "m" (String "i" (String "x" t3)))
                   = false).
    { simpl. destruct (ascii_dec "m" "m"); [|reflexivity].
      destruct (ascii_dec "i" "i"); [|reflexivity].
      destruct (ascii_dec "s" "x") as [Heq|]; [discriminate Heq | reflexivity]. }
    rewrite Hmis, H. reflexivity.
  - destruct (prefix_cons _ _ _ H) as (t & -> & _).
    do 3 other_family. rewrite H. reflexivity.
Qed.

Lemma no_family_script (model_type : string) :
  (forall family, In family supported_families ->
                  PyStr.startswith family model_type = false) ->
  _get_trainining_recipe_gpu_model_name_and_script (VStr model_type)
  = Raise (ValueError ("Model type " ++ model_type ++ " not supported")).
Proof.
  intros Hnone.
  assert (Hl := Hnone "llama" (or_introl eq_refl)).
  assert (Hmi := Hnone "mistral" (or_intror (or_introl eq_refl))).
  assert (Hmx := Hnone "mixtral" (or_intror (or_intror (or_introl eq_refl)))).
  assert (Hd := Hnone "deepseek"
                  (or_intror (or_intror (or_intror (or_introl eq_refl))))).
  unfold _get_trainining_recipe_gpu_model_name_and_script,
    model_type_to_script, first_family_prefix.
  rewrite Hl, Hmi, Hmx, Hd. unfold table_lookup.
  assert (Hne : forall key, PyStr.startswith key key = true ->
                            PyStr.startswith key model_type = false ->
                            String.eqb model_type key = false).
  { intros key Hself Hkey. destruct (String.eqb model_type key) eqn:E;
      [|reflexivity].
    apply String.eqb_eq in E. subst. congruence. }
  rewrite (Hne "llama" eq_refl Hl), (Hne "mistral" eq_refl Hmi),
    (Hne "mixtral" eq_refl Hmx), (Hne "deepseek" eq_refl Hd).
  reflexivity.
Qed.

(** X1. A model type that starts with one of the four supported families
    (llama, mistral, mixtral, deepseek) is mapped to that family's directory
    name and to the script [<family>_pretrain.py], whatever follows the
    family name. *)
Theorem supported_family_script (family model_type : string) :
  In family supported_families ->
  PyStr.startswith family model_type = true ->
  _get_trainining_recipe_gpu_model_name_and_script (VStr model_type)
  = Ok (family, family ++ "_pretrain.py").
Proof. exact (family_script family model_type). Qed.

Lemma supported_family_script_witness :
  _get_trainining_recipe_gpu_model_name_and_script (VStr "mixtral-8x7b")
  = Ok ("mixtral", "mixtral" ++ "_pretrain.py").
Proof.
  apply (supported_family_script "mixtral" "mixtral-8x7b").
  - simpl. tauto.
  - reflexivity.
Defined.

(** X2. A model type that starts with none of the supported families ends
    in the usage error that names it, unchanged; a model type that is not a
    string ends in [AttributeError], which is not a usage error. *)
Theorem unsupported_model_type (model_type : value) :
  (forall mt,
     model_type = VStr mt ->
     (forall family, In family supported_families ->
                     PyStr.startswith family mt = false) ->
     _get_trainining_recipe_gpu_model_name_and_script model_type
     = Raise (ValueError ("Model type " ++ mt ++ " not supported"))) /\
  ((forall mt, model_type <> VStr mt) ->
     _get_trainining_recipe_gpu_model_name_and_script model_type
     = Raise AttributeError).
Proof.
  split.
  - intros mt -> Hnone. now apply no_family_script.
  - intros Hns. destruct model_type; try reflexivity.
    now contradiction (Hns s).
Qed.

Lemma unsupported_model_type_witness :
  _get_trainining_recipe_gpu_model_name_and_script (VStr "gpt-neox")
  = Raise (ValueError ("Model type " ++ "gpt-neox" ++ " not supported")) /\
  _get_trainining_recipe_gpu_model_name_and_script (VInt 7)
  = Raise AttributeError.
Proof.
  split.
  - apply (proj1 (unsupported_model_type (VStr "gpt-neox")) "gpt-neox" eq_refl).
    simpl. intros family [<-|[<-|[<-|[<-|[]]]]]; reflexivity.
  - apply (proj2 (unsupported_model_type (VInt 7))). intros mt. discriminate.
Defined.

(** ** Registration of the resolvers *)

Lemma find_put_resolver (name name' : string) (r : resolver) (reg : resolvers) :
  find_resolver name' (put_resolver name r reg)
  = if String.eqb name' name then Some r else find_resolver name' reg.
Proof.
  induction reg as [|[n r0] t IH]; simpl.
  - reflexivity.
  - destruct (String.eqb name n) eqn:Hn; simpl.
    + apply String.eqb_eq in Hn. subst n.
      destruct (String.eqb name' name); reflexivity.
    + destruct (String.eqb name' n) eqn:Hn'.
      * apply String.eqb_eq in Hn'. subst n.
        rewrite String.eqb_sym in Hn. now rewrite Hn.
      * exact IH.
Qed.

(** One guarded registration: it returns, and a name keeps its resolver
    when it has one. *)
Lemma register_unless_present_spec (name : string) (r : resolver)
    (replace : bool) (reg : resolvers) :
  exists reg',
    register_unless_present name r replace reg = Ok reg' /\
    forall name',
      find_resolver name' reg'
      = match find_resolver name' reg with
        | Some old => Some old
        | None => if String.eqb name' name then Some r else None
        end.
Proof.
  unfold register_unless_present, register_new_resolver, has_resolver.
  destruct (find_resolver name reg) as [old|] eqn:Hfind; simpl.
  - exists reg. split; [reflexivity|]. intros name'.
    destruct (find_resolver name' reg) eqn:H'; [reflexivity|].
    destruct (String.eqb name' name) eqn:E; [|reflexivity].
    apply String.eqb_eq in E. subst. congruence.
  - eexists. split; [reflexivity|]. intros name'.
    rewrite find_put_resolver.
    destruct (String.eqb name' name) eqn:E.
    + apply String.eqb_eq in E. subst. now rewrite Hfind.
    + now destruct (find_resolver name' reg).
Qed.

Lemma register_custom_resolvers_spec (reg : resolvers) :
  exists reg',
    _register_custom_resolvers reg = Ok reg' /\
    forall name,
      find_resolver name reg'
      = match find_resolver name reg with
        | Some old => Some old
        | None => custom_resolver name
        end.
Proof.
  unfold _register_custom_resolvers.
  destruct (register_unless_present_spec "multiply" Multiply true reg)
    as (r1 & H1e & H1).
  destruct (register_unless_present_spec "divide_ceil" DivideCeil true r1)
    as (r2 & H2e & H2).
  destruct (register_unless_present_spec "divide_floor" DivideFloor true r2)
    as (r3 & H3e & H3).
  destruct (register_unless_present_spec "add" Add false r3)
    as (r4 & H4e & H4).
  rewrite H1e. cbn [rbind]. rewrite H2e. cbn [rbind].
  rewrite H3e. cbn [rbind].
  exists r4. split; [exact H4e|]. intros name.
  rewrite H4, H3, H2, H1. unfold custom_resolver.
  destruct (find_resolver name reg); [reflexivity|].
  destruct (String.eqb name "multiply"); [reflexivity|].
  destruct (String.eqb name "divide_ceil"); [reflexivity|].
  destruct (String.eqb name "divide_floor"); reflexivity.
Qed.

(** X3. [_register_custom_resolvers] never raises, also when [add] (which
    is registered without [replace]) is taken already; afterwards the four
    names are registered; a resolver that was registered under one of them
    before the call is kept, not replaced, and every other name is as it
    was. *)
Theorem register_custom_resolvers_keeps_existing (reg : resolvers) :
  exists reg',
    _register_custom_resolvers reg = Ok reg' /\
    (forall name, In name ["multiply"; "divide_ceil"; "divide_floor"; "add"] ->
                  has_resolver name reg' = true) /\
    (forall name old, find_resolver name reg = Some old ->
                      find_resolver name reg' = Some old) /\
    (forall name, custom_resolver name = None ->
                  find_resolver name reg' = find_resolver name reg).
Proof.
  destruct (register_custom_resolvers_spec reg) as (reg' & Hok & Hfind).
  exists reg'. split; [exact Hok|]. split; [|split].
  - intros name Hin. unfold has_resolver. rewrite Hfind.
    destruct (find_resolver name reg); [reflexivity|].
    simpl in Hin. destruct Hin as [<-|[<-|[<-|[<-|[]]]]]; reflexivity.
  - intros name old Hold. now rewrite Hfind, Hold.
  - intros name Hnone. rewrite Hfind, Hnone.
    now destruct (find_resolver name reg).
Qed.

(** X4. Registering twice is registering once: a second call of
    [_register_custom_resolvers] returns the table the first one left. *)
Theorem register_custom_resolvers_idempotent (reg reg' : resolvers) :
  _register_custom_resolvers reg = Ok reg' ->
  _register_custom_resolvers reg' = Ok reg'.
Proof.
  intros Hfirst.
  destruct (register_custom_resolvers_spec reg) as (r & Hok & Hfind).
  rewrite Hok in Hfirst. inversion Hfirst; subst r. clear Hfirst.
  assert (Hhas : forall name, custom_resolver name <> None ->
                              has_resolver name reg' = true).
  { intros name Hc. unfold has_resolver. rewrite Hfind.
    destruct (find_resolver name reg); [reflexivity|].
    destruct (custom_resolver name); [reflexivity | contradiction]. }
  unfold _register_custom_resolvers, register_unless_present.
  rewrite (Hhas "multiply") by discriminate. cbn [negb rbind].
  rewrite (Hhas "divide_ceil") by discriminate. cbn [negb rbind].
  rewrite (Hhas "divide_floor") by discriminate. cbn [negb rbind].
  rewrite (Hhas "add") by discriminate. reflexivity.
Qed.

Lemma register_custom_resolvers_idempotent_witness :
  _register_custom_resolvers
    [("add", Foreign 1); ("multiply", Multiply); ("divide_ceil", DivideCeil);
     ("divide_floor", DivideFloor)]
  = Ok [("add", Foreign 1); ("multiply", Multiply);
        ("divide_ceil", DivideCeil); ("divide_floor", DivideFloor)].
Proof.
  apply (register_custom_resolvers_idempotent [("add", Foreign 1)]).
  reflexivity.
Defined.

(** ** The device builders *)

Lemma getitem_contains (x v : value) (k : string) :
  Py.getitem x k = Ok v -> Py.contains k x = Ok true.
Proof.
  unfold Py.getitem, Py.contains, Py.has_key.
  destruct x; try discriminate.
  destruct (Py.assoc k d); [reflexivity | discriminate].
Qed.

Lemma env_or_cfg_env (env : Env) (name key url : string) (cfg : value) :
  env_getenv env name = Some url -> url <> "" ->
  env_or_cfg env name cfg key = Ok (VStr url).
Proof.
  intros Hget Hne. unfold env_or_cfg. rewrite Hget. simpl.
  destruct (String.eqb url "") eqn:E; [|reflexivity].
  apply String.eqb_eq in E. contradiction.
Qed.

Lemma env_or_cfg_registry (env : Env) (name key : string) (d : dict) :
  env_getenv env name = None \/ env_getenv env name = Some "" ->
  env_or_cfg env name (VDict d) key = Ok (field_or_none d key).
Proof.
  intros [H|H]; unfold env_or_cfg; rewrite H; reflexivity.
Qed.

Lemma gpu_args_clone_fails (env : Env) (cfg recipe : value)
    (region_name dir : string) (repo : value) (e : exn) (st : state) :
  env_or_cfg env "TRAINING_ADAPTER_GIT" cfg "adapter_repo" = Ok repo ->
  env_clone env repo dir = Some e ->
  _configure_gpu_args env cfg region_name recipe dir st
  = (logged st [EvClone repo dir], Raise e).
Proof.
  intros Hrepo Hclone. unfold _configure_gpu_args, clone.
  rewrite Hrepo. run_step. rewrite Hclone. reflexivity.
Qed.

(** X5. The gpu builder on a recipe it accepts: with the adapter
    repository cloned, a [model.model_type] of a supported family and a
    literal [gpu_image] in the registry, it returns the source directory
    [<dir>/examples/<family>], the family's script, the registry's image as
    it is, and a Torchrun strategy whose SMP part has the seed 123456; the
    only effect is the clone. *)
Theorem gpu_args_bundle (env : Env) (cfg recipe model : value)
    (region_name dir model_type family image : string) (repo : value)
    (st : state) :
  env_or_cfg env "TRAINING_ADAPTER_GIT" cfg "adapter_repo" = Ok repo ->
  env_clone env repo dir = None ->
  Py.getitem recipe "model" = Ok model ->
  Py.getitem model "model_type" = Ok (VStr model_type) ->
  In family supported_families ->
  PyStr.startswith family model_type = true ->
  Py.get cfg "gpu_image" VNone = Ok (VStr image) ->
  _configure_gpu_args env cfg region_name recipe dir st
  = (logged st [EvClone repo dir],
     Ok (mkDeviceArgs
           (mkSourceCode
              (Some (PyStr.path_join (PyStr.path_join dir "examples") family))
              (Some (family ++ "_pretrain.py")) None)
           image (Torchrun (Some (mkSMP "123456"))))).
Proof.
  intros Hrepo Hclone Hmodel Htype Hfam Hstart Himage.
  unfold _configure_gpu_args, clone. rewrite Hrepo. run_step.
  rewrite Hclone. rewrite (getitem_contains _ _ _ Hmodel). simpl.
  rewrite Hmodel. rewrite (getitem_contains _ _ _ Htype). simpl.
  rewrite Htype. rewrite (family_script _ _ Hfam Hstart).
  rewrite Himage. reflexivity.
Qed.

Lemma gpu_args_bundle_witness :
  _configure_gpu_args friendly_env registry_cfg "us-west-2"
    (VDict [("model", VDict [("model_type", VStr "deepseek_r1")])])
    "/tmp/training_" (init (mkCompute (Some "ml.g5.48xlarge") (VInt 1)))
  = (mkState (mkCompute (Some "ml.g5.48xlarge") (VInt 1))
       [EvClone (VStr "https://example.com/adapter.git") "/tmp/training_"],
     Ok (mkDeviceArgs
           (mkSourceCode
              (Some (PyStr.path_join
                       (PyStr.path_join "/tmp/training_" "examples") "deepseek"))
              (Some ("deepseek" ++ "_pretrain.py")) None)
           "gpu-image:latest" (Torchrun (Some (mkSMP "123456"))))).
Proof.
  apply (gpu_args_bundle friendly_env registry_cfg
           (VDict [("model", VDict [("model_type", VStr "deepseek_r1")])])
           (VDict [("model_type", VStr "deepseek_r1")])
           "us-west-2" "/tmp/training_" "deepseek_r1" "deepseek"
           "gpu-image:latest" (VStr "https://example.com/adapter.git")
           (init (mkCompute (Some "ml.g5.48xlarge") (VInt 1))));
    try reflexivity.
  simpl. tauto.
Defined.

(** X6. The gpu builder clones before it looks at the recipe, and the
    repository it clones is the value of [TRAINING_ADAPTER_GIT] when that
    variable is set and not empty, the registry's [adapter_repo] otherwise:
    when the clone fails its exception is what the builder raises, whatever
    the recipe contains. *)
Theorem gpu_args_clone_precedes_validation (env : Env) (cfg recipe : value)
    (region_name dir : string) (e : exn) (st : state) :
  let out := _configure_gpu_args env cfg region_name recipe dir st in
  (forall url,
     env_getenv env "TRAINING_ADAPTER_GIT" = Some url -> url <> "" ->
     env_clone env (VStr url) dir = Some e ->
     out = (logged st [EvClone (VStr url) dir], Raise e)) /\
  (forall d,
     env_getenv env "TRAINING_ADAPTER_GIT" = None \/
     env_getenv env "TRAINING_ADAPTER_GIT" = Some "" ->
     cfg = VDict d ->
     env_clone env (field_or_none d "adapter_repo") dir = Some e ->
     out = (logged st [EvClone (field_or_none d "adapter_repo") dir], Raise e)).
Proof.
  cbv zeta. split.
  - intros url Hget Hne Hclone.
    apply gpu_args_clone_fails; [|exact Hclone].
    now apply env_or_cfg_env.
  - intros d Hget -> Hclone.
    apply gpu_args_clone_fails; [|exact Hclone].
    now apply env_or_cfg_registry.
Qed.

(** X7. The accelerator builder reads neither the recipe nor the
    environment: it clones the registry's [neuron_dist_repo] and, with a
    literal [neuron_image], returns the source directory [<dir>/examples],
    the script [training_orchestrator.py], that image, and a Torchrun
    strategy without an SMP part. *)
Theorem trainium_args_bundle (env : Env) (d : dict)
    (region_name dir image : string) (st : state) :
  env_clone env (field_or_none d "neuron_dist_repo") dir = None ->
  Py.assoc "neuron_image" d = Some (VStr image) ->
  _configure_trainium_args env (VDict d) region_name dir st
  = (logged st [EvClone (field_or_none d "neuron_dist_repo") dir],
     Ok (mkDeviceArgs
           (mkSourceCode (Some (PyStr.path_join dir "examples"))
                         (Some "training_orchestrator.py") None)
           image (Torchrun None))).
Proof.
  intros Hclone Himage. unfold _configure_trainium_args, clone.
  run_step. unfold field_or_none in Hclone. rewrite Hclone, Himage.
  reflexivity.
Qed.

Lemma trainium_args_bundle_witness :
  _configure_trainium_args friendly_env registry_cfg "us-west-2"
    "/tmp/training_" (init (mkCompute (Some "ml.trn1.32xlarge") (VInt 1)))
  = (mkState (mkCompute (Some "ml.trn1.32xlarge") (VInt 1))
       [EvClone (VStr "https://example.com/neuron.git") "/tmp/training_"],
     Ok (mkDeviceArgs
           (mkSourceCode (Some (PyStr.path_join "/tmp/training_" "examples"))
                         (Some "training_orchestrator.py") None)
           "neuron-image:latest" (Torchrun None))).
Proof.
  apply (trainium_args_bundle friendly_env
           [ ("launcher_repo", VStr "https://example.com/launcher.git");
             ("adapter_repo", VStr "https://example.com/adapter.git");
             ("neuron_dist_repo", VStr "https://example.com/neuron.git");
             ("gpu_image", VStr "gpu-image:latest");
             ("neuron_image", VStr "neuron-image:latest") ]
           "us-west-2" "/tmp/training_" "neuron-image:latest"
           (init (mkCompute (Some "ml.trn1.32xlarge") (VInt 1))));
    reflexivity.
Defined.

(** X8. An image entry of the registry that is a mapping is looked up: the
    accelerator builder passes its [framework], the region, its [version]
    and its [additional_args] to the image lookup and takes the result; an
    exception of the lookup is raised as it is, and an entry without
    [additional_args] ends in [TypeError]. *)
Theorem trainium_image_lookup (env : Env) (d spec : dict)
    (region_name dir : string) (st : state) :
  env_clone env (field_or_none d "neuron_dist_repo") dir = None ->
  Py.assoc "neuron_image" d = Some (VDict spec) ->
  let out := _configure_trainium_args env (VDict d) region_name dir st in
  let st' := logged st [EvClone (field_or_none d "neuron_dist_repo") dir] in
  (forall kw,
     Py.assoc "additional_args" spec = Some (VDict kw) ->
     out = (st',
            match env_retrieve env (field_or_none spec "framework") region_name
                               (field_or_none spec "version") kw with
            | Ok image =>
                Ok (mkDeviceArgs
                      (mkSourceCode (Some (PyStr.path_join dir "examples"))
                                    (Some "training_orchestrator.py") None)
                      image (Torchrun None))
            | Raise e => Raise e
            end)) /\
  (Py.assoc "additional_args" spec = None -> out = (st', Raise TypeError)).
Proof.
  intros Hclone Himage. cbv zeta.
  unfold _configure_trainium_args, clone. run_step.
  unfold field_or_none in *. rewrite Hclone, Himage. simpl. split.
  - intros kw Hkw. rewrite Hkw. simpl.
    destruct (env_retrieve env
                match Py.assoc "framework" spec with
                | Some v => v | None => VNone end
                region_name
                match Py.assoc "version" spec with
                | Some v => v | None => VNone end kw); reflexivity.
  - intros Hkw. rewrite Hkw. reflexivity.
Qed.

Lemma gpu_args_clone_precedes_validation_witness :
  _configure_gpu_args offline_env registry_cfg "us-west-2" (VDict [])
    "/tmp/training_" (init (mkCompute (Some "ml.p4d.24xlarge") VNone))
  = (mkState (mkCompute (Some "ml.p4d.24xlarge") VNone)
       [EvClone (VStr "https://example.com/fork.git") "/tmp/training_"],
     Raise (External "clone failed")).
Proof.
  apply (proj1 (gpu_args_clone_precedes_validation offline_env registry_cfg
                  (VDict []) "us-west-2" "/tmp/training_"
                  (External "clone failed")
                  (init (mkCompute (Some "ml.p4d.24xlarge") VNone)))
               "https://example.com/fork.git").
  - reflexivity.
  - discriminate.
  - reflexivity.
Defined.

Lemma trainium_image_lookup_witness :
  _configure_trainium_args friendly_env (VDict lookup_registry) "us-west-2"
    "/tmp/training_" (init (mkCompute (Some "ml.trn1.32xlarge") (VInt 1)))
  = (mkState (mkCompute (Some "ml.trn1.32xlarge") (VInt 1))
       [EvClone (VStr "https://example.com/neuron.git") "/tmp/training_"],
     Ok (mkDeviceArgs
           (mkSourceCode (Some (PyStr.path_join "/tmp/training_" "examples"))
                         (Some "training_orchestrator.py") None)
           "image" (Torchrun None))).
Proof.
  apply (proj1 (trainium_image_lookup friendly_env lookup_registry
                  [("framework", VStr "pytorch"); ("version", VStr "1.13");
                   ("additional_args",
                    VDict [("container_version", VStr "v1")])]
                  "us-west-2" "/tmp/training_"
                  (init (mkCompute (Some "ml.trn1.32xlarge") (VInt 1)))
                  eq_refl eq_refl)
               [("container_version", VStr "v1")]).
  reflexivity.
Defined.

(** ** The recipe loader *)

(** X9. A reference that ends in [.yaml] is a file or a URL: the loader
    copies the local file when there is one, fetches the URL otherwise, and
    returns the loaded recipe merged with the overrides.  A failed fetch is
    the usage error that carries the reference and the cause.  In no case
    is the registry read or a repository cloned. *)
Theorem load_yaml_reference (env : Env) (ref : string)
    (overrides cfg : option value) (st : state) :
  PyStr.endswith ".yaml" ref = true ->
  let over := match overrides with Some o => o | None => VDict [] end in
  let loaded := match env_load_yaml env ref with
                | Ok r => Ok (merge r over)
                | Raise e => Raise e
                end in
  let out := _load_base_recipe env ref overrides cfg st in
  (env_isfile env ref = true ->
     out = (logged st [EvCopyRecipe ref; EvLoadYaml ref], loaded)) /\
  (forall msg,
     env_isfile env ref = false -> env_urlretrieve env ref = Some msg ->
     out = (logged st [EvUrlRetrieve ref],
            Raise (ValueError ("Could not fetch the provided recipe " ++ ref
                               ++ ": exception " ++ msg)))) /\
  (env_isfile env ref = false -> env_urlretrieve env ref = None ->
     out = (logged st [EvUrlRetrieve ref; EvLoadYaml ref], loaded)).
Proof.
  intros Hyaml. cbv zeta. unfold _load_base_recipe. rewrite Hyaml.
  split; [|split].
  - intros Hfile. rewrite Hfile. run_step. unfold logged.
    rewrite <- app_assoc. simpl.
    destruct (env_load_yaml env ref); reflexivity.
  - intros msg Hfile Hurl. rewrite Hfile. run_step. rewrite Hurl. reflexivity.
  - intros Hfile Hurl. rewrite Hfile. run_step. rewrite Hurl. simpl.
    unfold logged. rewrite <- app_assoc. simpl.
    destruct (env_load_yaml env ref); reflexivity.
Qed.

Lemma load_yaml_reference_witness :
  _load_base_recipe offline_env "https://example.com/r.yaml" None None
    (init (mkCompute (Some "ml.p4d.24xlarge") VNone))
  = (mkState (mkCompute (Some "ml.p4d.24xlarge") VNone)
       [EvUrlRetrieve "https://example.com/r.yaml"],
     Raise (ValueError ("Could not fetch the provided recipe "
                        ++ "https://example.com/r.yaml"
                        ++ ": exception " ++ "connection refused"))).
Proof.
  apply (proj1 (proj2 (load_yaml_reference offline_env
                         "https://example.com/r.yaml" None None
                         (init (mkCompute (Some "ml.p4d.24xlarge") VNone))
                         eq_refl))
               "connection refused"); reflexivity.
Defined.

(** X10. A reference that does not end in [.yaml] is the name of a recipe
    of the launcher repository: the loader clones that repository (taken
    from [TRAINING_LAUNCHER_GIT] or from the registry) into a fresh
    directory and looks for [recipes_collection/recipes/<name>.yaml] in it.
    A failed clone raises its exception; a name without a file is the
    usage error that names it; otherwise the file is loaded and merged
    with the overrides. *)
Theorem load_named_recipe (env : Env) (name : string)
    (overrides : option value) (cfg : value) (repo : value) (st : state) :
  PyStr.endswith ".yaml" name = false ->
  env_or_cfg env "TRAINING_LAUNCHER_GIT" cfg "launcher_repo" = Ok repo ->
  let dir := env_tmpdir env "launcher_" in
  let path :=
    PyStr.path_join
      (PyStr.path_join (PyStr.path_join dir "recipes_collection") "recipes")
      (name ++ ".yaml") in
  let over := match overrides with Some o => o | None => VDict [] end in
  let out := _load_base_recipe env name overrides (Some cfg) st in
  (forall e,
     env_clone env repo dir = Some e ->
     out = (logged st [EvMkTempDir "launcher_"; EvClone repo dir], Raise e)) /\
  (env_clone env repo dir = None -> env_isfile env path = false ->
     out = (logged st [EvMkTempDir "launcher_"; EvClone repo dir],
            Raise (ValueError ("Recipe " ++ name ++ " not found.")))) /\
  (env_clone env repo dir = None -> env_isfile env path = true ->
     out = (logged st [EvMkTempDir "launcher_"; EvClone repo dir;
                       EvCopyRecipe path; EvLoadYaml path],
            match env_load_yaml env path with
            | Ok r => Ok (merge r over)
            | Raise e => Raise e
            end)).
Proof.
  intros Hyaml Hrepo. cbv zeta. unfold _load_base_recipe, clone.
  rewrite Hyaml. run_step. rewrite Hrepo. simpl.
  split; [|split].
  - intros e Hclone. rewrite Hclone. unfold logged.
    rewrite <- app_assoc. reflexivity.
  - intros Hclone Hfile. rewrite Hclone. simpl. rewrite Hfile.
    unfold logged. rewrite <- app_assoc. reflexivity.
  - intros Hclone Hfile. rewrite Hclone. simpl. rewrite Hfile. simpl.
    unfold logged. rewrite <- !app_assoc. simpl.
    destruct (env_load_yaml env _); reflexivity.
Qed.

Lemma load_named_recipe_witness :
  _load_base_recipe offline_env "llama/pretrain" None (Some registry_cfg)
    (init (mkCompute (Some "ml.p4d.24xlarge") VNone))
  = (mkState (mkCompute (Some "ml.p4d.24xlarge") VNone)
       [EvMkTempDir "launcher_";
        EvClone (VStr "https://example.com/launcher.git") "/tmp/launcher_"],
     Raise (External "clone failed")).
Proof.
  apply (proj1 (load_named_recipe offline_env "llama/pretrain" None
                  registry_cfg (VStr "https://example.com/launcher.git")
                  (init (mkCompute (Some "ml.p4d.24xlarge") VNone))
                  eq_refl eq_refl)
               (External "clone failed")).
  reflexivity.
Defined.

Lemma path_join_absolute (a b : string) :
  PyStr.startswith "/" b = true -> PyStr.path_join a b = b.
Proof. intros H. unfold PyStr.path_join. now rewrite H. Qed.

Lemma startswith_slash_app (name suffix : string) :
  PyStr.startswith "/" name = true ->
  PyStr.startswith "/" (name ++ suffix) = true.
Proof.
  unfold PyStr.startswith. intros H.
  destruct (prefix_cons _ _ _ H) as (t & -> & _). simpl.
  destruct (ascii_dec "/" "/"); [|contradiction].
  destruct (t ++ suffix); reflexivity.
Qed.

(** X11. A recipe name that starts with a slash is not looked up inside
    the cloned repository: [os.path.join] drops the directory in front of
    an absolute component, so the file the loader probes and loads is
    [<name>.yaml] itself. *)
Theorem absolute_name_leaves_repository (env : Env) (name : string)
    (overrides : option value) (cfg : value) (repo : value) (st : state) :
  PyStr.endswith ".yaml" name = false ->
  PyStr.startswith "/" name = true ->
  env_or_cfg env "TRAINING_LAUNCHER_GIT" cfg "launcher_repo" = Ok repo ->
  env_clone env repo (env_tmpdir env "launcher_") = None ->
  env_isfile env (name ++ ".yaml") = true ->
  _load_base_recipe env name overrides (Some cfg) st
  = (logged st [EvMkTempDir "launcher_";
                EvClone repo (env_tmpdir env "launcher_");
                EvCopyRecipe (name ++ ".yaml"); EvLoadYaml (name ++ ".yaml")],
     match env_load_yaml env (name ++ ".yaml") with
     | Ok r => Ok (merge r match overrides with
                           | Some o => o
                           | None => VDict []
                           end)
     | Raise e => Raise e
     end).
Proof.
  intros Hyaml Habs Hrepo Hclone Hfile.
  unfold _load_base_recipe, clone. rewrite Hyaml. run_step.
  rewrite Hrepo. simpl. rewrite Hclone. simpl.
  rewrite (path_join_absolute _ _ (startswith_slash_app _ ".yaml" Habs)).
  rewrite Hfile. simpl. unfold logged. rewrite <- !app_assoc. simpl.
  destruct (env_load_yaml env (name ++ ".yaml")); reflexivity.
Qed.

Lemma absolute_name_leaves_repository_witness :
  _load_base_recipe (recipe_file_env (VDict [("trainer", VDict [])]))
    "/etc/recipes/mine" None (Some registry_cfg)
    (init (mkCompute (Some "ml.p4d.24xlarge") VNone))
  = (mkState (mkCompute (Some "ml.p4d.24xlarge") VNone)
       [EvMkTempDir "launcher_";
        EvClone (VStr "https://example.com/launcher.git") "/tmp/launcher_";
        EvCopyRecipe ("/etc/recipes/mine" ++ ".yaml");
        EvLoadYaml ("/etc/recipes/mine" ++ ".yaml")],
     Ok (merge (VDict [("trainer", VDict [])]) (VDict []))).
Proof.
  apply (absolute_name_leaves_repository
           (recipe_file_env (VDict [("trainer", VDict [])]))
           "/etc/recipes/mine" None registry_cfg
           (VStr "https://example.com/launcher.git")
           (init (mkCompute (Some "ml.p4d.24xlarge") VNone)));
    reflexivity.
Defined.

(** ** The entry point *)

Lemma entry_standard (env : Env) (training_recipe : recipe_ref)
    (region_name : string) (recipe_overrides : option value)
    (requirements : option string) (role : option string)
    (st st2 : state) (itype : string) (cfg recipe : value) :
  instance_type (st_compute st) = Some itype ->
  env_recipes_cfg env = Ok cfg ->
  recipe_of_reference env training_recipe recipe_overrides cfg
    (logged st [EvLoadRecipesCfg]) = (st2, Ok recipe) ->
  _is_nova_recipe recipe = Ok false ->
  Py.contains "trainer" recipe = Ok true ->
  _get_args_from_recipe env training_recipe region_name recipe_overrides
                        requirements role st
  = standard_path env cfg recipe itype region_name requirements st2.
Proof.
  intros Htype Hcfg Hload Hnova Htrainer.
  rewrite (entry_dispatch env training_recipe region_name recipe_overrides
             requirements role st st2 itype cfg recipe Htype Hcfg Hload).
  now rewrite Hnova, Htrainer.
Qed.

Lemma entry_alternate (env : Env) (training_recipe : recipe_ref)
    (region_name : string) (recipe_overrides : option value)
    (requirements : option string) (role : option string)
    (st st2 : state) (itype : string) (cfg recipe : value) :
  instance_type (st_compute st) = Some itype ->
  env_recipes_cfg env = Ok cfg ->
  recipe_of_reference env training_recipe recipe_overrides cfg
    (logged st [EvLoadRecipesCfg]) = (st2, Ok recipe) ->
  _is_nova_recipe recipe = Ok true ->
  _get_args_from_recipe env training_recipe region_name recipe_overrides
                        requirements role st
  = _get_args_from_nova_recipe env recipe role st2.
Proof.
  intros Htype Hcfg Hload Hnova.
  rewrite (entry_dispatch env training_recipe region_name recipe_overrides
             requirements role st st2 itype cfg recipe Htype Hcfg Hload).
  now rewrite Hnova.
Qed.

(** X12. The overrides reach named and file recipes only: when the recipe
    is handed over as a loaded configuration, the entry point uses it as it
    is, and two calls that differ in their overrides alone give the same
    result. *)
Theorem loaded_recipe_ignores_overrides (env : Env) (recipe : value)
    (region_name : string) (overrides overrides' : option value)
    (requirements : option string) (role : option string) (st : state) :
  _get_args_from_recipe env (RecipeCfg recipe) region_name overrides
                        requirements role st
  = _get_args_from_recipe env (RecipeCfg recipe) region_name overrides'
                          requirements role st.
Proof. reflexivity. Qed.

(** X13. The registry is read first, whatever the recipe is: when
    [training_recipes.json] cannot be loaded, the entry point raises that
    exception before it looks at the recipe, also for a loaded
    configuration of the alternate kind, which needs nothing from the
    registry. *)
Theorem registry_failure_stops_everything (env : Env)
    (training_recipe : recipe_ref) (region_name : string)
    (recipe_overrides : option value) (requirements : option string)
    (role : option string) (st : state) (itype : string) (e : exn) :
  instance_type (st_compute st) = Some itype ->
  env_recipes_cfg env = Raise e ->
  _get_args_from_recipe env training_recipe region_name recipe_overrides
                        requirements role st
  = (logged st [EvLoadRecipesCfg], Raise e).
Proof.
  intros Htype Hcfg. unfold _get_args_from_recipe, _load_recipes_cfg.
  run_step. rewrite Htype. simpl. rewrite Hcfg. reflexivity.
Qed.

Lemma count_block_fills (recipe : value) (trainer : dict) (n : value)
    (st : state) :
  instance_count (st_compute st) = VNone ->
  Py.getitem recipe "trainer" = Ok (VDict trainer) ->
  Py.assoc "num_nodes" trainer = Some n ->
  set_instance_count_block recipe st
  = (mkState (mkCompute (instance_type (st_compute st)) n) (st_log st), Ok tt).
Proof.
  intros Hnone Htrainer Hn. unfold set_instance_count_block. run_step.
  rewrite Hnone. simpl. rewrite Htrainer. simpl. unfold Py.has_key.
  rewrite Hn. reflexivity.
Qed.

Lemma standard_path_after_block (env : Env) (cfg recipe : value)
    (itype region_name : string) (requirements : option string)
    (st st1 : state) (e : exn) :
  set_instance_count_block recipe st = (st1, Ok tt) ->
  (requirements_not_found env requirements = true /\
   e = ValueError ("Recipe requirements file "
                   ++ match requirements with Some r => r | None => "" end
                   ++ " not found.")) \/
  (requirements_not_found env requirements = false /\
   _determine_device_type itype = Raise e) ->
  standard_path env cfg recipe itype region_name requirements st
  = (st1, Raise e).
Proof.
  intros Hblock Hcase. unfold standard_path, check_requirements.
  rewrite (bind_ok _ _ _ _ _ Hblock).
  destruct Hcase as [[Hreq ->] | [Hreq Hdev]]; rewrite Hreq.
  - reflexivity.
  - run_step. rewrite Hdev. reflexivity.
Qed.

(** X14. A requirements file that does not exist is reported after the
    instance count has been settled and before anything is cloned: on the
    standard path with an omitted [instance_count] and a
    [trainer.num_nodes], the call raises the usage error that names the
    file, and the caller's compute object already holds the node count. *)
Theorem missing_requirements_after_count (env : Env) (recipe : value)
    (trainer : dict) (n : value) (region_name itype file : string)
    (overrides : option value) (role : option string) (cfg : value)
    (st : state) :
  instance_type (st_compute st) = Some itype ->
  instance_count (st_compute st) = VNone ->
  env_recipes_cfg env = Ok cfg ->
  _is_nova_recipe recipe = Ok false ->
  Py.getitem recipe "trainer" = Ok (VDict trainer) ->
  Py.assoc "num_nodes" trainer = Some n ->
  file <> "" ->
  env_isfile env file = false ->
  _get_args_from_recipe env (RecipeCfg recipe) region_name overrides
                        (Some file) role st
  = (mkState (mkCompute (Some itype) n) (st_log st ++ [EvLoadRecipesCfg]),
     Raise (ValueError ("Recipe requirements file " ++ file ++ " not found."))).
Proof.
  intros Htype Hnone Hcfg Hnova Htrainer Hn Hfile Hmissing.
  rewrite (entry_standard env (RecipeCfg recipe) region_name overrides
             (Some file) role st (logged st [EvLoadRecipesCfg]) itype cfg
             recipe Htype Hcfg eq_refl Hnova
             (getitem_contains _ _ _ Htrainer)).
  pose proof (count_block_fills recipe trainer n
                (logged st [EvLoadRecipesCfg]) Hnone Htrainer Hn) as Hblock.
  simpl in Hblock. rewrite Htype in Hblock.
  apply (standard_path_after_block _ _ _ _ _ _ _ _ _ Hblock).
  left. split; [|reflexivity].
  unfold requirements_not_found. rewrite Hmissing. simpl.
  destruct (String.eqb file "") eqn:E; [|reflexivity].
  apply String.eqb_eq in E. contradiction.
Qed.

Lemma missing_requirements_after_count_witness :
  _get_args_from_recipe offline_env
    (RecipeCfg (VDict [("trainer", VDict [("num_nodes", VInt 2)])]))
    "us-west-2" None (Some "requirements.txt") None
    (init (mkCompute (Some "ml.p4d.24xlarge") VNone))
  = (mkState (mkCompute (Some "ml.p4d.24xlarge") (VInt 2)) ([] ++ [EvLoadRecipesCfg]),
     Raise (ValueError ("Recipe requirements file " ++ "requirements.txt"
                        ++ " not found."))).
Proof.
  apply (missing_requirements_after_count offline_env
           (VDict [("trainer", VDict [("num_nodes", VInt 2)])])
           [("num_nodes", VInt 2)] (VInt 2) "us-west-2" "ml.p4d.24xlarge"
           "requirements.txt" None None registry_cfg
           (init (mkCompute (Some "ml.p4d.24xlarge") VNone)));
    try reflexivity.
  discriminate.
Defined.

(** X15. An instance type without a dot is discovered late: on the
    standard path with an omitted [instance_count] and a
    [trainer.num_nodes], the entry point ends in [IndexError] after it has
    stored the node count in the caller's compute object, and before it
    creates a directory or clones. *)
Theorem undotted_instance_type_after_count (env : Env) (recipe : value)
    (trainer : dict) (n : value) (region_name itype : string)
    (overrides : option value) (requirements role : option string)
    (cfg : value) (st : state) :
  instance_type (st_compute st) = Some itype ->
  PyStr.has_char "."%char itype = false ->
  instance_count (st_compute st) = VNone ->
  env_recipes_cfg env = Ok cfg ->
  _is_nova_recipe recipe = Ok false ->
  Py.getitem recipe "trainer" = Ok (VDict trainer) ->
  Py.assoc "num_nodes" trainer = Some n ->
  requirements_not_found env requirements = false ->
  _get_args_from_recipe env (RecipeCfg recipe) region_name overrides
                        requirements role st
  = (mkState (mkCompute (Some itype) n) (st_log st ++ [EvLoadRecipesCfg]),
     Raise IndexError).
Proof.
  intros Htype Hdot Hnone Hcfg Hnova Htrainer Hn Hreq.
  rewrite (entry_standard env (RecipeCfg recipe) region_name overrides
             requirements role st (logged st [EvLoadRecipesCfg]) itype cfg
             recipe Htype Hcfg eq_refl Hnova
             (getitem_contains _ _ _ Htrainer)).
  pose proof (count_block_fills recipe trainer n
                (logged st [EvLoadRecipesCfg]) Hnone Htrainer Hn) as Hblock.
  simpl in Hblock. rewrite Htype in Hblock.
  apply (standard_path_after_block _ _ _ _ _ _ _ _ _ Hblock).
  right. split; [exact Hreq|].
  apply determine_device_type_no_family. unfold instance_family.
  apply after_first_has_char in Hdot. now rewrite Hdot.
Qed.

Lemma undotted_instance_type_after_count_witness :
  _get_args_from_recipe friendly_env
    (RecipeCfg (VDict [("trainer", VDict [("num_nodes", VInt 2)])]))
    "us-west-2" None None None (init (mkCompute (Some "local_gpu") VNone))
  = (mkState (mkCompute (Some "local_gpu") (VInt 2)) ([] ++ [EvLoadRecipesCfg]),
     Raise IndexError).
Proof.
  apply (undotted_instance_type_after_count friendly_env
           (VDict [("trainer", VDict [("num_nodes", VInt 2)])])
           [("num_nodes", VInt 2)] (VInt 2) "us-west-2" "local_gpu"
           None None None registry_cfg
           (init (mkCompute (Some "local_gpu") VNone)));
    reflexivity.
Defined.

Lemma registry_failure_stops_everything_witness :
  _get_args_from_recipe
    (mkEnv (Raise (External "no such file")) (fun _ => None) (fun _ => true)
           (fun _ => None) (fun _ => Ok (VDict [])) (fun _ _ => None)
           (fun _ _ _ _ => Ok "image") (fun cfg => (cfg, true))
           (fun prefix => "/tmp/" ++ prefix))
    (RecipeCfg (VDict [("run", VDict [("model_type", VStr "amazon.nova-micro");
                                      ("model_name_or_path", VStr "m")])]))
    "us-west-2" None None None (init (mkCompute (Some "ml.p4d.24xlarge") (VInt 1)))
  = (logged (init (mkCompute (Some "ml.p4d.24xlarge") (VInt 1)))
            [EvLoadRecipesCfg],
     Raise (External "no such file")).
Proof.
  apply (registry_failure_stops_everything _ _ _ _ _ _ _ "ml.p4d.24xlarge");
    reflexivity.
Defined.

Lemma resolve_first_root (env : Env) (recipe : value) (s : state) :
  snd (env_resolve env recipe) = true ->
  resolve_final_recipe env recipe s
  = (logged s [EvResolve None recipe], Ok (fst (env_resolve env recipe))).
Proof.
  intros Hok. unfold resolve_final_recipe, _try_resolve_recipe.
  destruct (env_resolve env recipe) as [after ok]. simpl in Hok. subst ok.
  reflexivity.
Qed.

Lemma standard_path_tail (env : Env) (cfg recipe : value)
    (itype region_name cls sdir : string) (requirements : option string)
    (st st1 st2 : state) (dargs : DeviceArgs) :
  set_instance_count_block recipe st = (st1, Ok tt) ->
  requirements_not_found env requirements = false ->
  _determine_device_type itype = Ok cls ->
  (cls = "gpu" /\
   _configure_gpu_args env cfg region_name recipe (env_tmpdir env "training_")
     (logged st1 [EvMkTempDir "training_"]) = (st2, Ok dargs)) \/
  (cls = "trainium" /\
   _configure_trainium_args env cfg region_name (env_tmpdir env "training_")
     (logged st1 [EvMkTempDir "training_"]) = (st2, Ok dargs)) ->
  source_dir (d_source_code dargs) = Some sdir ->
  snd (env_resolve env recipe) = true ->
  let copied := match requirements with
                | Some r => if Py.truthy (VStr r) then Some r else None
                | None => None
                end in
  standard_path env cfg recipe itype region_name requirements st
  = (logged st2
       ([EvRegisterResolvers; EvResolve None recipe;
         EvSaveRecipe (fst (env_resolve env recipe))
                      (PyStr.path_join sdir SM_RECIPE_YAML)]
        ++ match copied with
           | Some r => [EvCopyRequirements r sdir]
           | None => []
           end),
     Ok (mkArgs
           (Some match copied with
                 | Some r =>
                     mkSourceCode (source_dir (d_source_code dargs))
                                  (entry_script (d_source_code dargs))
                                  (Some (PyStr.basename r))
                 | None => d_source_code dargs
                 end)
           (Some (d_training_image dargs)) (Some (d_distributed dargs))
           (st_compute st2)
           [("config-path", VStr "."); ("config-name", VStr SM_RECIPE_YAML)],
         env_tmpdir env "training_")).
Proof.
  intros Hblock Hreq Hdev Hbuilder Hdir Hres. cbv zeta.
  unfold standard_path, check_requirements.
  rewrite (bind_ok _ _ _ _ _ Hblock). rewrite Hreq, Hdev.
  unfold bind at 1. unfold ret at 1.
  unfold bind at 1. unfold lift at 1.
  unfold bind at 1. unfold emit at 1.
  assert (Hargs :
    (if String.eqb cls "gpu"
     then _configure_gpu_args env cfg region_name recipe
            (env_tmpdir env "training_")
     else if String.eqb cls "trainium"
          then _configure_trainium_args env cfg region_name
                 (env_tmpdir env "training_")
          else raise (ValueError ("Devices of type " ++ cls
                          ++ " are not supported with training recipes.")))
      (logged st1 [EvMkTempDir "training_"]) = (st2, Ok dargs)).
  { destruct Hbuilder as [[-> H] | [-> H]]; exact H. }
  unfold logged in Hargs at 1.
  rewrite (bind_ok _ _ _ _ _ Hargs).
  unfold bind at 1. unfold emit at 1.
  rewrite (bind_ok _ _ _ _ _ (resolve_first_root env recipe _ Hres)).
  rewrite Hdir.
  destruct requirements as [r|]; [destruct (Py.truthy (VStr r))|];
    run_step; unfold logged; simpl; rewrite <- ?app_assoc; reflexivity.
Qed.

(** X16. What the standard path adds to the device builder's result.  When
    the instance count is settled, the requirements file (if any) exists,
    the device class is gpu or trainium, its builder returns, and the
    recipe resolves as it is, the entry point registers the resolvers,
    resolves, saves the resolved recipe as [recipe.yaml] in the source
    directory, copies a non-empty requirements path there and records its
    base name, and returns the builder's source code, image and strategy
    with the caller's compute object, the two hyperparameters
    [config-path = .] and [config-name = recipe.yaml], and the training
    directory. *)
Theorem standard_path_bundle (env : Env) (recipe cfg : value)
    (region_name itype cls sdir : string) (overrides : option value)
    (requirements role : option string) (st st1 st2 : state)
    (dargs : DeviceArgs) :
  instance_type (st_compute st) = Some itype ->
  env_recipes_cfg env = Ok cfg ->
  _is_nova_recipe recipe = Ok false ->
  Py.contains "trainer" recipe = Ok true ->
  set_instance_count_block recipe (logged st [EvLoadRecipesCfg])
  = (st1, Ok tt) ->
  requirements_not_found env requirements = false ->
  _determine_device_type itype = Ok cls ->
  (cls = "gpu" /\
   _configure_gpu_args env cfg region_name recipe (env_tmpdir env "training_")
     (logged st1 [EvMkTempDir "training_"]) = (st2, Ok dargs)) \/
  (cls = "trainium" /\
   _configure_trainium_args env cfg region_name (env_tmpdir env "training_")
     (logged st1 [EvMkTempDir "training_"]) = (st2, Ok dargs)) ->
  source_dir (d_source_code dargs) = Some sdir ->
  snd (env_resolve env recipe) = true ->
  let copied := match requirements with
                | Some r => if Py.truthy (VStr r) then Some r else None
                | None => None
                end in
  _get_args_from_recipe env (RecipeCfg recipe) region_name overrides
                        requirements role st
  = (logged st2
       ([EvRegisterResolvers; EvResolve None recipe;
         EvSaveRecipe (fst (env_resolve env recipe))
                      (PyStr.path_join sdir SM_RECIPE_YAML)]
        ++ match copied with
           | Some r => [EvCopyRequirements r sdir]
           | None => []
           end),
     Ok (mkArgs
           (Some match copied with
                 | Some r =>
                     mkSourceCode (source_dir (d_source_code dargs))
                                  (entry_script (d_source_code dargs))
                                  (Some (PyStr.basename r))
                 | None => d_source_code dargs
                 end)
           (Some (d_training_image dargs)) (Some (d_distributed dargs))
           (st_compute st2)
           [("config-path", VStr "."); ("config-name", VStr SM_RECIPE_YAML)],
         env_tmpdir env "training_")).
Proof.
  intros Htype Hcfg Hnova Htrainer Hblock Hreq Hdev Hbuilder Hdir Hres.
  rewrite (entry_standard env (RecipeCfg recipe) region_name overrides
             requirements role st (logged st [EvLoadRecipesCfg]) itype cfg
             recipe Htype Hcfg eq_refl Hnova Htrainer).
  exact (standard_path_tail env cfg recipe itype region_name cls sdir
           requirements _ st1 st2 dargs Hblock Hreq Hdev Hbuilder Hdir Hres).
Qed.

Lemma standard_path_bundle_witness :
  let recipe := VDict [("trainer", VDict [("num_nodes", VInt 2)])] in
  let c := mkCompute (Some "ml.trn1.32xlarge") VNone in
  _get_args_from_recipe friendly_env (RecipeCfg recipe) "us-west-2" None
                        (Some "reqs/requirements.txt") None (init c)
  = (mkState (mkCompute (Some "ml.trn1.32xlarge") (VInt 2))
       [EvLoadRecipesCfg; EvMkTempDir "training_";
        EvClone (VStr "https://example.com/neuron.git") "/tmp/training_";
        EvRegisterResolvers; EvResolve None recipe;
        EvSaveRecipe recipe "/tmp/training_/examples/recipe.yaml";
        EvCopyRequirements "reqs/requirements.txt" "/tmp/training_/examples"],
     Ok (mkArgs
           (Some (mkSourceCode (Some "/tmp/training_/examples")
                               (Some "training_orchestrator.py")
                               (Some "requirements.txt")))
           (Some "neuron-image:latest") (Some (Torchrun None))
           (mkCompute (Some "ml.trn1.32xlarge") (VInt 2))
           [("config-path", VStr "."); ("config-name", VStr "recipe.yaml")],
         "/tmp/training_")).
Proof.
  cbv zeta.
  exact (standard_path_bundle friendly_env
           (VDict [("trainer", VDict [("num_nodes", VInt 2)])]) registry_cfg
           "us-west-2" "ml.trn1.32xlarge" "trainium" "/tmp/training_/examples"
           None (Some "reqs/requirements.txt") None
           (init (mkCompute (Some "ml.trn1.32xlarge") VNone))
           (mkState (mkCompute (Some "ml.trn1.32xlarge") (VInt 2))
                    [EvLoadRecipesCfg])
           (mkState (mkCompute (Some "ml.trn1.32xlarge") (VInt 2))
                    [EvLoadRecipesCfg; EvMkTempDir "training_";
                     EvClone (VStr "https://example.com/neuron.git")
                             "/tmp/training_"])
           (mkDeviceArgs
              (mkSourceCode (Some "/tmp/training_/examples")
                            (Some "training_orchestrator.py") None)
              "neuron-image:latest" (Torchrun None))
           eq_refl eq_refl eq_refl eq_refl eq_refl eq_refl eq_refl
           (or_intror (conj eq_refl eq_refl)) eq_refl eq_refl).
Defined.

(** ** What a returned bundle holds *)

Ltac inv_bind H :=
  apply bind_ok_inv in H;
  let a := fresh "a" in
  let s := fresh "s" in
  let Hm := fresh "Hm" in
  destruct H as (a & s & Hm & H).

Lemma nova_returned_bundle (env : Env) (recipe : value) (role : option string)
    (st st' : state) (args : Args) (dir : string) :
  _get_args_from_nova_recipe env recipe role st = (st', Ok (args, dir)) ->
  exists hp,
    nova_hyperparameters recipe role = Ok hp /\
    args = mkArgs None None None (st_compute st') hp /\
    dir = env_tmpdir env "recipe_".
Proof.
  intros H. unfold _get_args_from_nova_recipe in H.
  inv_bind H. inv_bind H. inv_bind H. inv_bind H. inv_bind H. inv_bind H.
  inv_bind H.
  unfold lift in Hm0. unfold get_compute in Hm5. unfold ret in H.
  inversion Hm0; subst. inversion Hm5; subst. inversion H; subst.
  eexists. split; [eassumption|]. split; reflexivity.
Qed.

(** ** More on the alternate builder *)

(** X18. The alternate builder from end to end.  When an instance count
    is at hand (the caller's truthy count, or else a truthy
    [run.replicas], which is stored in the compute object), the
    hyperparameters build and the recipe resolves as it is, the builder
    registers the resolvers, resolves, creates the [recipe_] directory and
    saves the resolved recipe there as [recipe.yaml], and it returns a
    bundle without source code, image and strategy, with the compute
    object and the hyperparameters, and that directory.  Nothing else
    happens: no clone, and [compute.instance_type] is not read, so it may
    be unset or undotted. *)
Theorem alternate_bundle_shape (env : Env) (recipe : value)
    (role : option string) (st : state) (hp : dict) (c1 : Compute) :
  (Py.truthy (instance_count (st_compute st)) = true /\ c1 = st_compute st) \/
  (Py.truthy (instance_count (st_compute st)) = false /\
   exists r, run_replicas recipe = Ok r /\ Py.truthy r = true /\
             c1 = mkCompute (instance_type (st_compute st)) r) ->
  nova_hyperparameters recipe role = Ok hp ->
  snd (env_resolve env recipe) = true ->
  _get_args_from_nova_recipe env recipe role st
  = (mkState c1
       (st_log st
        ++ [EvRegisterResolvers; EvResolve None recipe; EvMkTempDir "recipe_";
            EvSaveRecipe (fst (env_resolve env recipe))
              (PyStr.path_join (env_tmpdir env "recipe_") SM_RECIPE_YAML)]),
     Ok (mkArgs None None None c1 hp, env_tmpdir env "recipe_")).
Proof.
  intros Hcount Hhp Hres.
  assert (Hblock : nova_instance_count_block recipe st
                   = (mkState c1 (st_log st), Ok tt)).
  { destruct Hcount as [[Hc ->] | [Hc (r & Hr & Ht & ->)]].
    - rewrite (nova_count_supplied recipe st Hc). now destruct st.
    - exact (nova_count_from_replicas recipe st r Hc Hr Ht). }
  unfold _get_args_from_nova_recipe.
  rewrite (bind_ok _ _ _ _ _ Hblock). unfold bind at 1, lift. rewrite Hhp.
  unfold bind at 1, emit at 1.
  rewrite (bind_ok _ _ _ _ _ (resolve_first_root env recipe _ Hres)).
  run_step. rewrite <- !app_assoc. reflexivity.
Qed.

Lemma alternate_bundle_shape_witness :
  let recipe :=
    VDict [("run", VDict [("model_type", VStr "amazon.nova-lite");
                          ("model_name_or_path", VStr "nova-lite");
                          ("replicas", VInt 3)])] in
  _get_args_from_nova_recipe friendly_env recipe None
    (init (mkCompute None VNone))
  = (mkState (mkCompute None (VInt 3))
       ([] ++ [EvRegisterResolvers; EvResolve None recipe;
               EvMkTempDir "recipe_";
               EvSaveRecipe (fst (env_resolve friendly_env recipe))
                 (PyStr.path_join (env_tmpdir friendly_env "recipe_")
                                  SM_RECIPE_YAML)]),
     Ok (mkArgs None None None (mkCompute None (VInt 3))
                [("base_model", VStr "nova-lite")],
         env_tmpdir friendly_env "recipe_")).
Proof.
  cbv zeta.
  apply (alternate_bundle_shape friendly_env
           (VDict [("run", VDict [("model_type", VStr "amazon.nova-lite");
                                  ("model_name_or_path", VStr "nova-lite");
                                  ("replicas", VInt 3)])])
           None (init (mkCompute None VNone))
           [("base_model", VStr "nova-lite")] (mkCompute None (VInt 3))).
  - right. split; [reflexivity|]. exists (VInt 3). repeat split.
  - reflexivity.
  - reflexivity.
Defined.

(** X19. The base model of an alternate recipe.  Without distillation
    data, the hyperparameters of a returned bundle hold one entry for a
    non-empty [run.model_name_or_path]: under [base_model_location] when
    the path starts with [s3://], under [base_model] otherwise, never both;
    the role plays no part. *)
Theorem base_model_hyperparameter (env : Env) (recipe : value)
    (role : option string) (run training_config : dict) (path : string)
    (st st' : state) (args : Args) (dir : string) :
  section_of recipe "run" = Some run ->
  section_of recipe "training_config" = Some training_config ->
  Py.truthy (field_or_none training_config "distillation_data") = false ->
  Py.assoc "model_name_or_path" run = Some (VStr path) ->
  path <> "" ->
  _get_args_from_nova_recipe env recipe role st = (st', Ok (args, dir)) ->
  a_hyperparameters args
  = [(if PyStr.startswith "s3://" path then "base_model_location"
      else "base_model", VStr path)].
Proof.
  intros Hrun Htc Hdd Hpath Hne H.
  destruct (nova_returned_bundle _ _ _ _ _ _ _ H) as (hp & Hhp & -> & _).
  assert (Hok : model_path_ok run = true).
  { unfold model_path_ok. now rewrite Hpath. }
  rewrite (nova_hyperparameters_typed recipe role _ _ Hrun Hok Htc) in Hhp.
  cbv zeta in Hhp. rewrite Hdd in Hhp. inversion Hhp. simpl.
  unfold base_model_entry. rewrite Hpath. simpl.
  destruct (String.eqb path "") eqn:E.
  - apply String.eqb_eq in E. contradiction.
  - simpl. destruct (PyStr.startswith "s3://" path); reflexivity.
Qed.

Lemma base_model_hyperparameter_witness :
  a_hyperparameters
    (mkArgs None None None (mkCompute (Some "ml.p4d.24xlarge") (VInt 4))
            [("base_model_location", VStr "s3://bucket/model")])
  = [(if PyStr.startswith "s3://" "s3://bucket/model"
      then "base_model_location" else "base_model",
      VStr "s3://bucket/model")].
Proof.
  apply (base_model_hyperparameter friendly_env
           (VDict [("run", VDict [("model_type", VStr "amazon.nova-micro");
                                  ("model_name_or_path",
                                   VStr "s3://bucket/model")])])
           (Some "role-1")
           [("model_type", VStr "amazon.nova-micro");
            ("model_name_or_path", VStr "s3://bucket/model")]
           [] "s3://bucket/model"
           (init (mkCompute (Some "ml.p4d.24xlarge") (VInt 4)))
           (fst (_get_args_from_nova_recipe friendly_env
                   (VDict [("run",
                            VDict [("model_type", VStr "amazon.nova-micro");
                                   ("model_name_or_path",
                                    VStr "s3://bucket/model")])])
                   (Some "role-1")
                   (init (mkCompute (Some "ml.p4d.24xlarge") (VInt 4)))))
           _ "/tmp/recipe_"); try reflexivity.
  discriminate.
Defined.

(** X20. On the alternate path a truthy [compute.instance_count] wins over
    [run.replicas]: whatever the recipe holds and however the call ends,
    the caller's compute object is as it was. *)
Theorem callers_count_wins_on_alternate (env : Env) (recipe : value)
    (role : option string) (st : state) :
  Py.truthy (instance_count (st_compute st)) = true ->
  st_compute (fst (_get_args_from_nova_recipe env recipe role st))
  = st_compute st.
Proof.
  intros Hc.
  exact (nova_compute env recipe role st st (Ok tt)
           (nova_count_supplied recipe st Hc)).
Qed.

Lemma callers_count_wins_on_alternate_witness :
  st_compute
    (fst (_get_args_from_nova_recipe friendly_env
            (VDict [("run", VDict [("replicas", VInt 8)])]) None
            (init (mkCompute (Some "ml.p4d.24xlarge") (VInt 2)))))
  = st_compute (init (mkCompute (Some "ml.p4d.24xlarge") (VInt 2))).
Proof.
  apply (callers_count_wins_on_alternate friendly_env
           (VDict [("run", VDict [("replicas", VInt 8)])]) None
           (init (mkCompute (Some "ml.p4d.24xlarge") (VInt 2)))).
  reflexivity.
Defined.

(** X21. With neither a truthy [compute.instance_count] nor a truthy
    [run.replicas] the alternate builder raises its first usage error (its
    text speaks of [instance_type], the test is on the instance count) and
    leaves the state as it was: nothing is assigned, registered or
    written. *)
Theorem alternate_needs_a_count (env : Env) (recipe : value)
    (role : option string) (run : dict) (st : state) :
  section_of recipe "run" = Some run ->
  Py.truthy (instance_count (st_compute st)) = false ->
  Py.truthy (field_or_none run "replicas") = false ->
  _get_args_from_nova_recipe env recipe role st
  = (st, Raise (ValueError
       "Must set ``instance_type`` in compute or ``replicas`` in recipe.")).
Proof.
  intros Hrun Hc Hr. unfold _get_args_from_nova_recipe.
  apply bind_raise.
  exact (nova_count_missing recipe st _ Hc (run_replicas_typed _ _ Hrun) Hr).
Qed.

Lemma alternate_needs_a_count_witness :
  _get_args_from_nova_recipe friendly_env
    (VDict [("run", VDict [("model_type", VStr "amazon.nova-micro");
                           ("model_name_or_path", VStr "m")])])
    None (init (mkCompute (Some "ml.p4d.24xlarge") VNone))
  = (init (mkCompute (Some "ml.p4d.24xlarge") VNone),
     Raise (ValueError
       "Must set ``instance_type`` in compute or ``replicas`` in recipe.")).
Proof.
  apply (alternate_needs_a_count friendly_env
           (VDict [("run", VDict [("model_type", VStr "amazon.nova-micro");
                                  ("model_name_or_path", VStr "m")])])
           None
           [("model_type", VStr "amazon.nova-micro");
            ("model_name_or_path", VStr "m")]
           (init (mkCompute (Some "ml.p4d.24xlarge") VNone)));
    reflexivity.
Defined.

(** ** Malformed sections *)

(** X22. The classifier calls [.get] and [.lower] on what it finds.  A
    recipe whose [run] or [training_config] is there and is a scalar (a
    null [run:] for one), or whose [run.model_type] is a scalar that is no
    string, makes it raise [AttributeError], which is not a usage error and
    which the entry point does not catch.  A [run] that is a sequence has
    a [get] of its own, which refuses the string key with OmegaConf's
    [KeyValidationError], a [ValueError]. *)
Theorem classifier_needs_typed_sections (d : dict) :
  (forall v,
     Py.assoc "run" d = Some v -> is_scalar v = true ->
     _is_nova_recipe (VDict d) = Raise AttributeError) /\
  (forall l,
     Py.assoc "run" d = Some (VList l) ->
     _is_nova_recipe (VDict d) = Raise KeyValidationError) /\
  (forall run v,
     section_of (VDict d) "run" = Some run ->
     Py.assoc "model_type" run = Some v ->
     is_scalar v = true -> (forall s, v <> VStr s) ->
     _is_nova_recipe (VDict d) = Raise AttributeError) /\
  (forall run model_type v,
     section_of (VDict d) "run" = Some run ->
     string_field run "model_type" = Some model_type ->
     Py.assoc "training_config" d = Some v -> is_scalar v = true ->
     _is_nova_recipe (VDict d) = Raise AttributeError).
Proof.
  split; [|split; [|split]].
  - intros v Hrun Hsc. unfold _is_nova_recipe. simpl. rewrite Hrun.
    destruct v; try reflexivity; discriminate Hsc.
  - intros l Hrun. unfold _is_nova_recipe. simpl. rewrite Hrun. reflexivity.
  - intros run v Hrun Hmt Hsc Hns. unfold _is_nova_recipe.
    rewrite (section_get _ _ _ Hrun). simpl. rewrite Hmt.
    destruct v; try reflexivity; try discriminate Hsc.
    now contradiction (Hns s).
  - intros run model_type v Hrun Hmt Htc Hsc. unfold _is_nova_recipe.
    rewrite (section_get _ _ _ Hrun). cbn [rbind Py.cfg_get Py.get].
    unfold string_field in Hmt.
    assert (Hm : match Py.assoc "model_type" run with
                 | Some x => x | None => VStr "" end = VStr model_type).
    { destruct (Py.assoc "model_type" run) as [[]|]; try discriminate;
        now inversion Hmt. }
    rewrite Hm. cbn [Py.lower rbind Py.truthy]. rewrite Htc.
    assert (Hraise : forall b : result bool,
              (exists x, b = Ok x) ->
              rbind b (fun has_nova_model =>
                rbind (Py.cfg_get v "distillation_data" VNone)
                  (fun distillation_data =>
                     Ok (orb has_nova_model
                             (negb (Py.is_none distillation_data)))))
              = Raise AttributeError).
    { intros b [x ->]. simpl.
      destruct v; try reflexivity; discriminate Hsc. }
    apply Hraise.
    destruct (negb (String.eqb (PyStr.lower model_type) ""));
      [|now eexists].
    destruct (PyStr.contains "amazon.nova" (PyStr.lower model_type));
      now eexists.
Qed.

Lemma classifier_needs_typed_sections_witness :
  _is_nova_recipe
    (VDict [("run", VNone); ("trainer", VDict [("num_nodes", VInt 1)])])
  = Raise AttributeError.
Proof.
  apply (proj1 (classifier_needs_typed_sections
                  [("run", VNone); ("trainer", VDict [("num_nodes", VInt 1)])])
               VNone); reflexivity.
Defined.

(** ** The segments of an instance type *)

Lemma upto_no_sep (sep : ascii) (a : string) :
  PyStr.has_char sep a = false -> upto sep a = a.
Proof.
  induction a as [|c t IH]; simpl; [reflexivity|].
  destruct (Ascii.eqb c sep); [discriminate|].
  intros H. now rewrite IH.
Qed.

Lemma upto_app (sep : ascii) (a b : string) :
  PyStr.has_char sep a = false -> upto sep (a ++ String sep b) = a.
Proof.
  induction a as [|c t IH]; simpl.
  - now rewrite Ascii.eqb_refl.
  - destruct (Ascii.eqb c sep); [discriminate|].
    intros H. now rewrite IH.
Qed.

Lemma after_first_app (sep : ascii) (a b : string) :
  PyStr.has_char sep a = false -> after_first sep (a ++ String sep b) = Some b.
Proof.
  induction a as [|c t IH]; simpl.
  - now rewrite Ascii.eqb_refl.
  - destruct (Ascii.eqb c sep); [discriminate | exact IH].
Qed.

(** X23. Only the second dot-separated segment of the instance type is
    read: what stands before the first dot and what follows the second
    play no part in the device class, which is the class of the family in
    between. *)
Theorem device_type_reads_second_segment (before family rest : string) :
  PyStr.has_char "."%char before = false ->
  PyStr.has_char "."%char family = false ->
  let class := if gpu_prefixed family then "gpu"
               else if accelerator_prefixed family then "trainium"
               else "cpu" in
  _determine_device_type (before ++ "." ++ family ++ "." ++ rest) = Ok class /\
  _determine_device_type (before ++ "." ++ family) = Ok class.
Proof.
  intros Hb Hf. cbv zeta. split; apply determine_device_type_family;
    unfold instance_family.
  - change (before ++ "." ++ family ++ "." ++ rest)
      with (before ++ String "." (family ++ String "." rest)).
    rewrite (after_first_app _ _ _ Hb). simpl.
    now rewrite (upto_app _ _ _ Hf).
  - change (before ++ "." ++ family)
      with (before ++ String "." family).
    rewrite (after_first_app _ _ _ Hb). simpl.
    now rewrite (upto_no_sep _ _ Hf).
Qed.

Lemma device_type_reads_second_segment_witness :
  _determine_device_type ("local" ++ "." ++ "g5" ++ "." ++ "48xlarge.extra")
  = Ok "gpu" /\
  _determine_device_type ("local" ++ "." ++ "g5") = Ok "gpu".
Proof.
  apply (device_type_reads_second_segment "local" "g5" "48xlarge.extra");
    reflexivity.
Defined.

(** ** No overrides *)

Lemma merge_empty_overrides (da : dict) :
  merge (VDict da) (VDict []) = VDict da.
Proof.
  cbn [merge filter]. rewrite app_nil_r. f_equal.
  induction da as [|[k v] t IH]; cbn [map Py.assoc]; [reflexivity|].
  f_equal. exact IH.
Qed.

(** X24. Without overrides the loader merges the empty mapping: on the
    deep merge of section 3, a recipe file whose content is a mapping is
    returned as it was loaded. *)
Theorem no_overrides_keep_recipe (env : Env) (ref : string)
    (cfg : option value) (st st' : state) (recipe : value) :
  _load_base_recipe env ref None cfg st = (st', Ok recipe) ->
  exists src loaded,
    env_load_yaml env src = Ok loaded /\
    (is_mapping loaded = true -> recipe = loaded).
Proof.
  intros H.
  destruct (load_base_recipe_merges _ _ _ _ _ _ _ H)
    as (src & loaded & Hload & ->).
  exists src, loaded. split; [exact Hload|].
  intros Hmap. destruct loaded; try discriminate Hmap.
  apply merge_empty_overrides.
Qed.

Lemma no_overrides_keep_recipe_witness :
  exists src loaded,
    env_load_yaml
      (recipe_file_env (VDict [("trainer", VDict [("num_nodes", VInt 2)])]))
      src = Ok loaded /\
    (is_mapping loaded = true ->
     VDict [("trainer", VDict [("num_nodes", VInt 2)])] = loaded).
Proof.
  apply (no_overrides_keep_recipe
           (recipe_file_env (VDict [("trainer", VDict [("num_nodes", VInt 2)])]))
           "recipe.yaml" None
           (init (mkCompute (Some "ml.p4d.24xlarge") VNone))
           (mkState (mkCompute (Some "ml.p4d.24xlarge") VNone)
                    [EvCopyRecipe "recipe.yaml"; EvLoadYaml "recipe.yaml"])
           (VDict [("trainer", VDict [("num_nodes", VInt 2)])])).
  reflexivity.
Defined.

(** ** What the alternate path does not read *)

(** X25. For a loaded recipe of the alternate kind the entry point never
    looks at the region or at the requirements file: two calls that differ
    in them alone give the same result, so a requirements file passed with
    such a recipe is neither checked nor copied. *)
Theorem alternate_ignores_region_and_requirements (env : Env) (recipe : value)
    (region_name region_name' : string) (overrides : option value)
    (requirements requirements' role : option string) (st : state) :
  _is_nova_recipe recipe = Ok true ->
  _get_args_from_recipe env (RecipeCfg recipe) region_name overrides
                        requirements role st
  = _get_args_from_recipe env (RecipeCfg recipe) region_name' overrides
                          requirements' role st.
Proof.
  intros Hnova. unfold _get_args_from_recipe, _load_recipes_cfg,
    recipe_of_reference.
  run_step. destruct (instance_type (st_compute st)); [|reflexivity].
  simpl. destruct (env_recipes_cfg env); [|reflexivity].
  simpl. rewrite Hnova. reflexivity.
Qed.

Lemma alternate_ignores_region_and_requirements_witness :
  let recipe :=
    VDict [("run", VDict [("model_type", VStr "amazon.nova-micro");
                          ("model_name_or_path", VStr "s3://bucket/model")])] in
  let st := init (mkCompute (Some "ml.p4d.24xlarge") (VInt 4)) in
  _get_args_from_recipe offline_env (RecipeCfg recipe) "us-west-2" None
                        (Some "missing.txt") None st
  = _get_args_from_recipe offline_env (RecipeCfg recipe) "eu-west-1" None
                          None None st.
Proof.
  cbv zeta.
  apply (alternate_ignores_region_and_requirements offline_env
           (VDict [("run", VDict [("model_type", VStr "amazon.nova-micro");
                                  ("model_name_or_path",
                                   VStr "s3://bucket/model")])])).
  reflexivity.
Defined.

(** ** A supplied count without [num_nodes] *)

(** X26. On the standard path a supplied [compute.instance_count] is
    enough: when [trainer] is a mapping without [num_nodes] and the count
    is not [None], the instance-count block changes nothing, warns of
    nothing and raises nothing. *)
Theorem supplied_count_needs_no_num_nodes (recipe : value) (trainer : dict)
    (st : state) :
  Py.getitem recipe "trainer" = Ok (VDict trainer) ->
  Py.has_key "num_nodes" trainer = false ->
  instance_count (st_compute st) <> VNone ->
  set_instance_count_block recipe st = (st, Ok tt).
Proof.
  intros Htrainer Hkey Hsome. unfold set_instance_count_block. run_step.
  rewrite Htrainer. simpl. rewrite Hkey.
  destruct (instance_count (st_compute st)) eqn:Hc; try contradiction;
    simpl;
    repeat match goal with
           | |- context [if ?b then _ else _] => destruct b; simpl
           end;
    reflexivity.
Qed.

Lemma supplied_count_needs_no_num_nodes_witness :
  set_instance_count_block
    (VDict [("trainer", VDict [("max_steps", VInt 10)])])
    (init (mkCompute (Some "ml.p4d.24xlarge") (VInt 4)))
  = (init (mkCompute (Some "ml.p4d.24xlarge") (VInt 4)), Ok tt).
Proof.
  apply (supplied_count_needs_no_num_nodes
           (VDict [("trainer", VDict [("max_steps", VInt 10)])])
           [("max_steps", VInt 10)]
           (init (mkCompute (Some "ml.p4d.24xlarge") (VInt 4))));
    [reflexivity | reflexivity | discriminate].
Defined.

(** ** The device class and its builder *)

Lemma standard_path_builder_raises (env : Env) (cfg recipe : value)
    (itype region_name cls : string) (requirements : option string)
    (st st1 st2 : state) (e : exn) :
  set_instance_count_block recipe st = (st1, Ok tt) ->
  requirements_not_found env requirements = false ->
  _determine_device_type itype = Ok cls ->
  (cls = "gpu" /\
   _configure_gpu_args env cfg region_name recipe (env_tmpdir env "training_")
     (logged st1 [EvMkTempDir "training_"]) = (st2, Raise e)) \/
  (cls = "trainium" /\
   _configure_trainium_args env cfg region_name (env_tmpdir env "training_")
     (logged st1 [EvMkTempDir "training_"]) = (st2, Raise e)) ->
  standard_path env cfg recipe itype region_name requirements st
  = (st2, Raise e).
Proof.
  intros Hblock Hreq Hdev Hbuilder. unfold standard_path, check_requirements.
  rewrite (bind_ok _ _ _ _ _ Hblock). rewrite Hreq, Hdev.
  unfold bind at 1. unfold ret at 1.
  unfold bind at 1. unfold lift at 1.
  unfold bind at 1. unfold emit at 1.
  apply bind_raise.
  destruct Hbuilder as [[-> H] | [-> H]]; exact H.
Qed.

(** C5, as the code has it.  For an instance type that has a family, the
    device class is a function of the family alone: gpu for a family that
    starts with [p] or [g], trainium (the accelerator) for one that starts
    with [trn], cpu for every other.  With class cpu the standard path
    never returns a bundle.  Once the instance-count block and the
    requirements check have passed (their errors come first), the class
    decides what runs: the gpu class runs the gpu builder and the
    accelerator class the accelerator builder (an exception of the builder
    is the result, and what it returns goes into the bundle), and class cpu
    raises the usage error that names it. *)
Theorem device_class_by_family_prefix (env : Env) (cfg recipe : value)
    (itype family region_name : string) (requirements : option string)
    (st : state) :
  instance_family itype = Some family ->
  let dir := env_tmpdir env "training_" in
  let out := standard_path env cfg recipe itype region_name requirements st in
  let copied := match requirements with
                | Some r => if Py.truthy (VStr r) then Some r else None
                | None => None
                end in
  let bundle (st2 : state) (dargs : DeviceArgs) (sdir : string) :=
    (logged st2
       ([EvRegisterResolvers; EvResolve None recipe;
         EvSaveRecipe (fst (env_resolve env recipe))
                      (PyStr.path_join sdir SM_RECIPE_YAML)]
        ++ match copied with
           | Some r => [EvCopyRequirements r sdir]
           | None => []
           end),
     Ok (mkArgs
           (Some match copied with
                 | Some r =>
                     mkSourceCode (source_dir (d_source_code dargs))
                                  (entry_script (d_source_code dargs))
                                  (Some (PyStr.basename r))
                 | None => d_source_code dargs
                 end)
           (Some (d_training_image dargs)) (Some (d_distributed dargs))
           (st_compute st2)
           [("config-path", VStr "."); ("config-name", VStr SM_RECIPE_YAML)],
         dir)) in
  _determine_device_type itype
  = Ok (if gpu_prefixed family then "gpu"
        else if accelerator_prefixed family then "trainium" else "cpu") /\
  (gpu_prefixed family = false -> accelerator_prefixed family = false ->
     forall st2 x, out <> (st2, Ok x)) /\
  (forall st1,
     set_instance_count_block recipe st = (st1, Ok tt) ->
     requirements_not_found env requirements = false ->
     let started := logged st1 [EvMkTempDir "training_"] in
     (gpu_prefixed family = true ->
        (forall st2 e,
           _configure_gpu_args env cfg region_name recipe dir started
           = (st2, Raise e) ->
           out = (st2, Raise e)) /\
        (forall st2 dargs sdir,
           _configure_gpu_args env cfg region_name recipe dir started
           = (st2, Ok dargs) ->
           source_dir (d_source_code dargs) = Some sdir ->
           snd (env_resolve env recipe) = true ->
           out = bundle st2 dargs sdir)) /\
     (gpu_prefixed family = false -> accelerator_prefixed family = true ->
        (forall st2 e,
           _configure_trainium_args env cfg region_name dir started
           = (st2, Raise e) ->
           out = (st2, Raise e)) /\
        (forall st2 dargs sdir,
           _configure_trainium_args env cfg region_name dir started
           = (st2, Ok dargs) ->
           source_dir (d_source_code dargs) = Some sdir ->
           snd (env_resolve env recipe) = true ->
           out = bundle st2 dargs sdir)) /\
     (gpu_prefixed family = false -> accelerator_prefixed family = false ->
        out = (started,
               Raise (ValueError
                 "Devices of type cpu are not supported with training recipes.")))).
Proof.
  intros Hfam. cbv zeta.
  pose proof (determine_device_type_family _ _ Hfam) as Hdev.
  split; [exact Hdev|]. split.
  - intros Hg Ha st2 x. rewrite Hg, Ha in Hdev.
    now apply standard_path_unsupported_never_ok.
  - intros st1 Hblock Hreq. split; [|split].
    + intros Hg. rewrite Hg in Hdev. split.
      * intros st2 e Hb.
        apply (standard_path_builder_raises env cfg recipe itype region_name
                 "gpu" requirements st st1 st2 e Hblock Hreq Hdev).
        left. now split.
      * intros st2 dargs sdir Hb Hdir Hres.
        apply (standard_path_tail env cfg recipe itype region_name "gpu" sdir
                 requirements st st1 st2 dargs Hblock Hreq Hdev); auto.
    + intros Hg Ha. rewrite Hg, Ha in Hdev. split.
      * intros st2 e Hb.
        apply (standard_path_builder_raises env cfg recipe itype region_name
                 "trainium" requirements st st1 st2 e Hblock Hreq Hdev).
        right. now split.
      * intros st2 dargs sdir Hb Hdir Hres.
        apply (standard_path_tail env cfg recipe itype region_name "trainium"
                 sdir requirements st st1 st2 dargs Hblock Hreq Hdev); auto.
    + intros Hg Ha. rewrite Hg, Ha in Hdev.
      now apply standard_path_unsupported_device.
Qed.

(** The theorem at [ml.p4d.24xlarge], on a recipe the gpu builder
    refuses: the builder's error is the result. *)
Lemma device_class_by_family_prefix_witness :
  let recipe := VDict [("trainer", VDict [("num_nodes", VInt 2)])] in
  let st := init (mkCompute (Some "ml.p4d.24xlarge") VNone) in
  _determine_device_type "ml.p4d.24xlarge" = Ok "gpu" /\
  standard_path friendly_env registry_cfg recipe "ml.p4d.24xlarge" "us-west-2"
                None st
  = (mkState (mkCompute (Some "ml.p4d.24xlarge") (VInt 2))
       [EvMkTempDir "training_";
        EvClone (VStr "https://example.com/adapter.git") "/tmp/training_"],
     Raise (ValueError "Supplied recipe does not contain required field model.")).
Proof.
  cbv zeta.
  destruct (device_class_by_family_prefix friendly_env registry_cfg
              (VDict [("trainer", VDict [("num_nodes", VInt 2)])])
              "ml.p4d.24xlarge" "p4d" "us-west-2" None
              (init (mkCompute (Some "ml.p4d.24xlarge") VNone)) eq_refl)
    as (Hdev & _ & Hrun).
  split; [exact Hdev|].
  destruct (Hrun (mkState (mkCompute (Some "ml.p4d.24xlarge") (VInt 2)) [])
                 eq_refl eq_refl) as (Hgpu & _ & _).
  apply (proj1 (Hgpu eq_refl)). reflexivity.
Defined.

(** C5 as stated fails at a family that is neither gpu nor accelerator when
    the requirements file is missing: the usage error raised is the one
    that names the file, raised before the device class is determined, not
    the one that names the device class. *)
Lemma unsupported_family_reports_requirements_first :
  let recipe := VDict [("trainer", VDict [("num_nodes", VInt 2)])] in
  let st := init (mkCompute (Some "ml.c5.xlarge") VNone) in
  let out := _get_args_from_recipe offline_env (RecipeCfg recipe) "us-west-2"
               None (Some "requirements.txt") None st in
  instance_family "ml.c5.xlarge" = Some "c5" /\
  gpu_prefixed "c5" = false /\
  accelerator_prefixed "c5" = false /\
  _is_nova_recipe recipe = Ok false /\
  snd out
  = Raise (ValueError "Recipe requirements file requirements.txt not found.") /\
  snd out
  <> Raise (ValueError
              "Devices of type cpu are not supported with training recipes.").
Proof. cbv zeta. repeat split. discriminate. Qed.
